(** * Verification model of the district-heating PLC simulation

    Shallow embedding of [src/plc/process_sim.c] (process state, physics tick,
    controller, crash handler and the Modbus register interface), of the
    client accounting and thread steps in [src/plc/heating_controller.c], and
    of the decisions of [src/plc/display.c] (runtime text, temperature bar,
    colours and screen choice; the [printf] calls themselves are not
    modelled).

    Representation choices:
    - C [double] values are modelled by exact rational arithmetic ([Q]); the
      decimal constants of [process_sim.h] are exact rationals here.
    - C [int] values are modelled by [Z]; the [uint32_t] counters wrap modulo
      2^32 as written out below.
    - The register bank ([uint16_t *]) is a list of [Z] read with [nth].
    - A double stored into a state field is kept in lowest terms ([Qred]);
      this changes the representation only, never the value ([Qred_correct]),
      and keeps the size of the numbers of long trajectories bounded.
    - The [pthread_mutex_t] member is not modelled: each operation below runs
      entirely under that lock in the source, so it is one atomic step. *)

From Stdlib Require Import ZArith QArith Qround Lqa List Lia Bool Morphisms Ascii.
Import ListNotations.

Open Scope Z_scope.

(** ** Constants of [process_sim.h] *)

Definition TEMP_SETPOINT_DEFAULT : Q := 20.
Definition TEMP_WARNING : Q := 10.
Definition TEMP_CRITICAL : Q := 5.
Definition TEMP_FROZEN : Q := 0.
Definition TEMP_INITIAL_INSIDE : Q := 20.
Definition TEMP_OUTSIDE_DEFAULT : Q := -15.
Definition TEMP_SUPPLY_DEFAULT : Q := 90.

Definition HEAT_LOSS_FACTOR : Q := 15 # 1000.
Definition HEATER_POWER_MAX : Q := 80.
Definition THERMAL_MASS : Q := 30.
Definition VALVE_SLEW_RATE : Q := 5.

Definition UPDATE_INTERVAL_MS : Z := 1000.

(** ** Enumerations *)

Inductive process_status_t :=
| STATUS_OK | STATUS_WARNING | STATUS_CRITICAL | STATUS_FROZEN | STATUS_BURST.

(** The numeric value of the C enumerator (its severity rank). *)
Definition status_code (st : process_status_t) : Z :=
  match st with
  | STATUS_OK => 0 | STATUS_WARNING => 1 | STATUS_CRITICAL => 2
  | STATUS_FROZEN => 3 | STATUS_BURST => 4
  end.

Definition status_eqb (a b : process_status_t) : bool :=
  status_code a =? status_code b.

Inductive control_mode_t := MODE_MANUAL | MODE_AUTO.

Definition mode_code (m : control_mode_t) : Z :=
  match m with MODE_MANUAL => 0 | MODE_AUTO => 1 end.

Definition mode_eqb (a b : control_mode_t) : bool := mode_code a =? mode_code b.

(** The cast [(control_mode_t)v] for the values [v] that pass the guard. *)
Definition mode_of_code (v : Z) : control_mode_t :=
  if v =? 1 then MODE_AUTO else MODE_MANUAL.

(** ** Process state ([process_state_t]) *)

Record process_state_t := mk_state {
  inside_temp : Q;
  valve_cmd : Z;
  setpoint : Q;
  mode : control_mode_t;
  outside_temp : Q;
  status : process_status_t;
  valve_actual : Z;
  supply_temp : Q;
  runtime : Z;
  heater_power : Q;
  controller_running : bool;
  time_without_control : Z;
  pipes_burst : bool
}.

(** ** Helpers for the C operators used by the source *)

(** [a < b] on doubles. *)
Definition Qltb (a b : Q) : bool := negb (Qle_bool b a).

(** Conversion [(int)x] of a double: truncation toward zero. *)
Definition trunc_to_int (x : Q) : Z := Z.quot (Qnum x) (Zpos (Qden x)).

(** [uint32_t] increment. *)
Definition u32_incr (x : Z) : Z := (x + 1) mod 2 ^ 32.

(** ** [process_init] *)

Definition process_init : process_state_t := {|
  inside_temp := TEMP_INITIAL_INSIDE;
  valve_cmd := 50;
  setpoint := TEMP_SETPOINT_DEFAULT;
  mode := MODE_AUTO;
  outside_temp := TEMP_OUTSIDE_DEFAULT;
  status := STATUS_OK;
  valve_actual := 50;
  supply_temp := TEMP_SUPPLY_DEFAULT;
  runtime := 0;
  heater_power := 0;
  controller_running := true;
  time_without_control := 0;
  pipes_burst := false
|}.

(** ** [process_update_physics] *)

(** Time step [dt = UPDATE_INTERVAL_MS / 1000.0]. *)
Definition dt : Q := (inject_Z UPDATE_INTERVAL_MS / 1000)%Q.

(** Valve dynamics: slew toward [valve_cmd] while the controller runs. *)
Definition valve_slew (s : process_state_t) : Z :=
  if controller_running s then
    let valve_diff := valve_cmd s - valve_actual s in
    let max_change := trunc_to_int (VALVE_SLEW_RATE * dt)%Q in
    if valve_diff >? max_change then valve_actual s + max_change
    else if valve_diff <? - max_change then valve_actual s - max_change
    else valve_cmd s
  else valve_actual s.

(** [if (v < 0) v = 0; if (v > 100) v = 100;] *)
Definition clamp_percent (v : Z) : Z :=
  let v := if v <? 0 then 0 else v in
  if v >? 100 then 100 else v.

(** [if (t < -30.0) t = -30.0; if (t > 50.0) t = 50.0;] *)
Definition clamp_temp (t : Q) : Q :=
  let t := if Qltb t (-30) then (-30)%Q else t in
  if Qltb 50 t then 50%Q else t.

Definition heat_loss_of (inside outside : Q) : Q :=
  ((inside - outside) * HEAT_LOSS_FACTOR)%Q.

Definition valve_fraction_of (va : Z) : Q := (inject_Z va / 100)%Q.

Definition heat_gain_of (va : Z) : Q :=
  (valve_fraction_of va * HEATER_POWER_MAX / THERMAL_MASS)%Q.

(** Status ladder of the source: new status and new [pipes_burst] flag. *)
Definition status_update (t : Q) (st : process_status_t) (pb : bool)
  : process_status_t * bool :=
  if Qle_bool t TEMP_FROZEN then
    if negb (status_eqb st STATUS_BURST) then
      if Qle_bool t (-2) then (STATUS_BURST, true) else (STATUS_FROZEN, pb)
    else (st, pb)
  else if Qle_bool t TEMP_CRITICAL then (STATUS_CRITICAL, pb)
  else if Qle_bool t TEMP_WARNING then (STATUS_WARNING, pb)
  else (STATUS_OK, pb).

Definition process_update_physics (s : process_state_t) : process_state_t :=
  if pipes_burst s then s
  else
    let runtime' := u32_incr (runtime s) in
    let twc' := if negb (controller_running s)
                then u32_incr (time_without_control s)
                else time_without_control s in
    let va := clamp_percent (valve_slew s) in
    let heat_loss := heat_loss_of (inside_temp s) (outside_temp s) in
    let valve_fraction := valve_fraction_of va in
    let heat_gain := heat_gain_of va in
    let t := Qred (clamp_temp (inside_temp s + (heat_gain - heat_loss) * dt)%Q) in
    let hp := Qred (valve_fraction * HEATER_POWER_MAX)%Q in
    let st_pb := status_update t (status s) (pipes_burst s) in
    {| inside_temp := t;
       valve_cmd := valve_cmd s;
       setpoint := setpoint s;
       mode := mode s;
       outside_temp := outside_temp s;
       status := fst st_pb;
       valve_actual := va;
       supply_temp := supply_temp s;
       runtime := runtime';
       heater_power := hp;
       controller_running := controller_running s;
       time_without_control := twc';
       pipes_burst := snd st_pb |}.

(** ** [process_run_controller] *)

(** The control law of the AUTO branch: the new [valve_cmd]. *)
Definition control_law (sp inside : Q) : Z :=
  let error := (sp - inside)%Q in
  let deadband := 2%Q in
  let vc := if Qltb deadband error then 100
            else if Qltb error (- deadband) then 0
            else trunc_to_int (50 + (error / deadband) * 50)%Q in
  clamp_percent vc.

Definition process_run_controller (s : process_state_t) : process_state_t :=
  if negb (controller_running s) || pipes_burst s then s
  else if negb (mode_eqb (mode s) MODE_AUTO) then s
  else {| inside_temp := inside_temp s;
          valve_cmd := control_law (setpoint s) (inside_temp s);
          setpoint := setpoint s;
          mode := mode s;
          outside_temp := outside_temp s;
          status := status s;
          valve_actual := valve_actual s;
          supply_temp := supply_temp s;
          runtime := runtime s;
          heater_power := heater_power s;
          controller_running := controller_running s;
          time_without_control := time_without_control s;
          pipes_burst := pipes_burst s |}.

(** ** [process_controller_crash] *)

Definition process_controller_crash (s : process_state_t) : process_state_t :=
  {| inside_temp := inside_temp s;
     valve_cmd := 0;
     setpoint := setpoint s;
     mode := mode s;
     outside_temp := outside_temp s;
     status := status s;
     valve_actual := valve_actual s;
     supply_temp := supply_temp s;
     runtime := runtime s;
     heater_power := heater_power s;
     controller_running := false;
     time_without_control := 0;
     pipes_burst := pipes_burst s |}.

(** [g_process.controller_running = 0;] written directly by a client thread
    (the transaction-id trigger path of [client_thread]). *)
Definition clear_controller_running (s : process_state_t) : process_state_t :=
  {| inside_temp := inside_temp s;
     valve_cmd := valve_cmd s;
     setpoint := setpoint s;
     mode := mode s;
     outside_temp := outside_temp s;
     status := status s;
     valve_actual := valve_actual s;
     supply_temp := supply_temp s;
     runtime := runtime s;
     heater_power := heater_power s;
     controller_running := false;
     time_without_control := time_without_control s;
     pipes_burst := pipes_burst s |}.

(** ** Register interface *)

Definition NB_REGISTERS : nat := 10.

(** A register bank as held in [tab_registers]: [NB_REGISTERS] values of
    type [uint16_t]. *)
Definition uint16_bank (regs : list Z) : Prop :=
  length regs = NB_REGISTERS /\ Forall (fun r => 0 <= r < 65536) regs.

Definition process_from_registers (s : process_state_t) (registers : list Z)
  : process_state_t :=
  let r1 := nth 1 registers 0 in
  let r2 := nth 2 registers 0 in
  let r3 := nth 3 registers 0 in
  {| inside_temp := inside_temp s;
     valve_cmd := if r1 <=? 100 then r1 else valve_cmd s;
     setpoint := if r2 <=? 400 then Qred (inject_Z r2 / 10)%Q else setpoint s;
     mode := if r3 <=? 1 then mode_of_code r3 else mode s;
     outside_temp := outside_temp s;
     status := status s;
     valve_actual := valve_actual s;
     supply_temp := supply_temp s;
     runtime := runtime s;
     heater_power := heater_power s;
     controller_running := controller_running s;
     time_without_control := time_without_control s;
     pipes_burst := pipes_burst s |}.

(** ** One iteration of [process_thread]: physics, then the controller if
    it is alive. *)

Definition process_thread_step (s : process_state_t) : process_state_t :=
  let s := process_update_physics s in
  if controller_running s then process_run_controller s else s.

(** ** Operations on the shared state and reachable states *)

Inductive op :=
| Op_physics
| Op_controller
| Op_crash
| Op_clear_running
| Op_from_registers (registers : list Z).

Definition apply_op (o : op) (s : process_state_t) : process_state_t :=
  match o with
  | Op_physics => process_update_physics s
  | Op_controller => process_run_controller s
  | Op_crash => process_controller_crash s
  | Op_clear_running => clear_controller_running s
  | Op_from_registers regs => process_from_registers s regs
  end.

(** Operations the program can perform: register banks are [uint16_t]. *)
Definition op_ok (o : op) : Prop :=
  match o with
  | Op_from_registers regs => uint16_bank regs
  | _ => True
  end.

Inductive reachable : process_state_t -> Prop :=
| reach_init : reachable process_init
| reach_op o s : op_ok o -> reachable s -> reachable (apply_op o s).

(** ** Client accounting of [heating_controller.c] ([g_client_count]) *)

Definition MAX_CONNECTIONS : Z := 64.

(** The only use of [MAX_CONNECTIONS] in the source:
    [modbus_tcp_listen(g_modbus_ctx, MAX_CONNECTIONS)], the listen backlog. *)
Definition listen_backlog : Z := MAX_CONNECTIONS.

Inductive server_event :=
| Ev_accept_failed
(** [accept] succeeded; whether [malloc] of the arguments and
    [pthread_create] succeeded. *)
| Ev_accepted (args_ok thread_ok : bool)
(** a client thread left its serving loop *)
| Ev_client_exit.

Definition server_step (g_client_count : Z) (e : server_event) : Z :=
  match e with
  | Ev_accept_failed => g_client_count
  | Ev_accepted args_ok thread_ok =>
      let c := g_client_count + 1 in
      if negb args_ok then c - 1
      else if negb thread_ok then c - 1
      else c
  | Ev_client_exit => g_client_count - 1
  end.

Definition server_run (g_client_count : Z) (es : list server_event) : Z :=
  fold_left server_step es g_client_count.

(** A sequence of operations applied in order. *)
Definition run_ops (os : list op) (s : process_state_t) : process_state_t :=
  fold_left (fun s o => apply_op o s) os s.

(** Value equality of two states: the double fields compared as numbers. *)
Definition state_equiv (a b : process_state_t) : Prop :=
  (inside_temp a == inside_temp b)%Q /\ valve_cmd a = valve_cmd b /\
  (setpoint a == setpoint b)%Q /\ mode a = mode b /\
  (outside_temp a == outside_temp b)%Q /\ status a = status b /\
  valve_actual a = valve_actual b /\ (supply_temp a == supply_temp b)%Q /\
  runtime a = runtime b /\ (heater_power a == heater_power b)%Q /\
  controller_running a = controller_running b /\
  time_without_control a = time_without_control b /\
  pipes_burst a = pipes_burst b.

(** Ticks of [process_thread], with the register bank written back by a
    client (or not) before each tick. *)
Fixpoint trajectory (s : process_state_t) (writes : list (option (list Z)))
  : list process_state_t :=
  match writes with
  | [] => []
  | w :: rest =>
      let s1 := match w with
                | Some regs => process_from_registers s regs
                | None => s
                end in
      let s2 := process_thread_step s1 in
      s2 :: trajectory s2 rest
  end.

(** [process_thread_step] iterated [n] times. *)
Fixpoint iter_ticks (n : nat) (s : process_state_t) : process_state_t :=
  match n with
  | O => s
  | S k => iter_ticks k (process_thread_step s)
  end.

(** The value the spec's words give to [valve_cmd] in the AUTO branch:
    [50 + 50*(error/d)] clamped to [0,100], as a number. *)
Definition spec_valve_cmd (sp inside : Q) : Q :=
  let error := (sp - inside)%Q in
  let d := 2%Q in
  if Qltb d error then 100%Q
  else if Qltb error (- d) then 0%Q
  else let v := (50 + 50 * (error / d))%Q in
       if Qltb v 0 then 0%Q else if Qltb 100 v then 100%Q else v.

(** Range invariant of the reachable states. *)
Definition range_inv (s : process_state_t) : Prop :=
  0 <= valve_cmd s <= 100 /\ 0 <= valve_actual s <= 100 /\
  (0 <= setpoint s <= 40)%Q /\
  (status s = STATUS_BURST -> pipes_burst s = true).

(** A client write that puts the controller in MANUAL mode with the valve
    closed, and one that restores AUTO mode. *)
Definition cooling_bank : list Z := [0; 0; 200; 0; 0; 0; 0; 0; 0; 0].
Definition reheating_bank : list Z := [0; 100; 200; 1; 0; 0; 0; 0; 0; 0].

(** 49 ticks of cooling bring the building into CRITICAL; four ticks after
    AUTO mode is restored the building is still CRITICAL. *)
Definition recovery_state : process_state_t :=
  iter_ticks 4
    (process_from_registers
       (iter_ticks 49 (process_from_registers process_init cooling_bank))
       reheating_bank).

(** 77 ticks with the valve closed freeze the building until the pipes
    burst. *)
Definition burst_state : process_state_t :=
  iter_ticks 77 (process_from_registers process_init cooling_bank).

(** ** [process_to_registers] *)

(** Conversion of an integer value to [uint16_t]: reduction modulo 2^16. *)
Definition to_u16 (z : Z) : Z := z mod 65536.

(** The register image of the state. A double converted to [int16_t] or
    [uint16_t] is truncated toward zero ([trunc_to_int]); C leaves the
    conversion undefined when the truncated value does not fit the target
    type, and the model keeps the plain truncation there. *)
Definition process_to_registers (s : process_state_t) : list Z :=
  [ to_u16 (Z.land (trunc_to_int (inside_temp s * 10)%Q) 65535);
    to_u16 (valve_cmd s);
    to_u16 (trunc_to_int (setpoint s * 10)%Q);
    to_u16 (mode_code (mode s));
    to_u16 (Z.land (trunc_to_int (outside_temp s * 10)%Q) 65535);
    to_u16 (status_code (status s));
    to_u16 (valve_actual s);
    to_u16 (trunc_to_int (supply_temp s * 10)%Q);
    to_u16 (Z.land (runtime s) 65535);
    to_u16 (trunc_to_int (heater_power s * 10)%Q) ].


(** One iteration of [process_thread] up to the register refresh: physics,
    the controller if alive, then [process_to_registers]. *)
Definition process_thread_publish (s : process_state_t) : process_state_t * list Z :=
  let s := process_thread_step s in (s, process_to_registers s).

(** ** Status as a function of the inside temperature *)

(** The ladder of [process_update_physics] read as a function of the
    temperature alone. *)
Definition classify_temp (t : Q) : process_status_t :=
  if Qle_bool t TEMP_FROZEN then
    if Qle_bool t (-2) then STATUS_BURST else STATUS_FROZEN
  else if Qle_bool t TEMP_CRITICAL then STATUS_CRITICAL
  else if Qle_bool t TEMP_WARNING then STATUS_WARNING
  else STATUS_OK.

(** Further invariants of the reachable states. *)
Definition ext_inv (s : process_state_t) : Prop :=
  (-30 <= inside_temp s <= 50)%Q /\
  outside_temp s = TEMP_OUTSIDE_DEFAULT /\
  supply_temp s = TEMP_SUPPLY_DEFAULT /\
  (exists k, 0 <= k <= 400 /\ (setpoint s == inject_Z k / 10)%Q) /\
  (0 <= heater_power s <= 80)%Q /\
  status s = classify_temp (inside_temp s) /\
  (pipes_burst s = true <-> status s = STATUS_BURST) /\
  (controller_running s = true -> time_without_control s = 0) /\
  0 <= runtime s < 2 ^ 32 /\ 0 <= time_without_control s < 2 ^ 32.

(** Equilibrium temperature of one physics tick for the valve opening [va]:
    the temperature at which heat gain and heat loss balance. *)
Definition equilibrium_temp (s : process_state_t) (va : Z) : Q :=
  (outside_temp s + heat_gain_of va / HEAT_LOSS_FACTOR)%Q.

(** The temperature of a non-burst physics tick before clamping. *)
Definition raw_next_temp (s : process_state_t) : Q :=
  let va := clamp_percent (valve_slew s) in
  (inside_temp s + (heat_gain_of va - heat_loss_of (inside_temp s) (outside_temp s)) * dt)%Q.

(** ** [display.c] *)

(** [printf] conversion [%d] of a non-negative [int]: its decimal digits
    (ten digits cover every [int]). *)
Definition digit_char (d : Z) : ascii := ascii_of_nat (48 + Z.to_nat d).

Fixpoint dec_digits (fuel : nat) (n : Z) : list ascii :=
  match fuel with
  | O => []
  | S f => if n <? 10 then [digit_char n]
           else dec_digits f (n / 10) ++ [digit_char (n mod 10)]
  end.

(** [%02d]: at least two characters, padded with ['0'] on the left. *)
Definition fmt02d (n : Z) : list ascii :=
  let ds := dec_digits 10 n in
  if (length ds <? 2)%nat then "0"%char :: ds else ds.

(** The decimal value of a string of digits. *)
Definition dec_value (l : list ascii) : Z :=
  fold_left (fun acc c => acc * 10 + (Z.of_nat (nat_of_ascii c) - 48)) l 0.

(** [snprintf(buffer, size, ...)]: the characters stored before the
    terminating NUL. *)
Definition snprintf_chars (size : nat) (out : list ascii) : list ascii :=
  firstn (size - 1) out.

Definition format_runtime_fields (seconds : Z) : Z * Z * Z :=
  let hours := seconds / 3600 in
  let mins := (seconds mod 3600) / 60 in
  let secs := seconds mod 60 in
  (hours, mins, secs).

(** [format_runtime(seconds, buffer, size)] for a [uint32_t] [seconds]. *)
Definition format_runtime (seconds : Z) (size : nat) : list ascii :=
  let '(hours, mins, secs) := format_runtime_fields seconds in
  snprintf_chars size
    (fmt02d hours ++ [":"%char] ++ fmt02d mins ++ [":"%char] ++ fmt02d secs).

(** Colours of the console output used by the decisions below. *)
Inductive color := COLOR_RED | COLOR_GREEN | COLOR_YELLOW | COLOR_CYAN | COLOR_WHITE.

(** [render_temp_bar] *)
Definition bar_width : Z := 50.
Definition temp_min : Q := -20.
Definition temp_max : Q := 40.

Definition bar_pos (x : Q) : Z :=
  let p := trunc_to_int ((x - temp_min) / (temp_max - temp_min) * inject_Z bar_width)%Q in
  let p := if p <? 0 then 0 else p in
  if p >=? bar_width then bar_width - 1 else p.

Definition bar_color (temp : Q) : color :=
  if Qle_bool temp TEMP_FROZEN then COLOR_RED
  else if Qle_bool temp TEMP_CRITICAL then COLOR_RED
  else if Qle_bool temp TEMP_WARNING then COLOR_YELLOW
  else COLOR_GREEN.

(** A printed cell of the bar: the setpoint marker, a filled cell in the bar
    colour, or an empty cell. *)
Inductive bar_cell := Cell_setpoint | Cell_filled (c : color) | Cell_empty.

Definition render_temp_bar (temp sp : Q) : list bar_cell :=
  let temp_pos := bar_pos temp in
  let setpoint_pos := bar_pos sp in
  let c := bar_color temp in
  map (fun i => if i =? setpoint_pos then Cell_setpoint
                else if i <? temp_pos then Cell_filled c
                else Cell_empty)
      (map Z.of_nat (seq 0 (Z.to_nat bar_width))).

(** Kinds of printed cells, for counting. *)
Definition is_marker (c : bar_cell) : bool :=
  match c with Cell_setpoint => true | _ => false end.

Definition is_filled (c : bar_cell) : bool :=
  match c with Cell_filled _ => true | _ => false end.

(** [display_render]: colour of the status indicator. *)
Definition status_color (st : process_status_t) : color :=
  match st with
  | STATUS_OK => COLOR_GREEN
  | STATUS_WARNING => COLOR_YELLOW
  | STATUS_CRITICAL => COLOR_RED
  | STATUS_FROZEN | STATUS_BURST => COLOR_RED
  end.

(** [display_render]: colour of the current temperature line. *)
Definition temp_line_color (st : process_status_t) : color :=
  if status_code st >=? status_code STATUS_CRITICAL then COLOR_RED
  else if status_eqb st STATUS_WARNING then COLOR_YELLOW
  else COLOR_GREEN.

(** [display_render]: the radiator drawing. *)
Inductive radiator_view := Rad_ice | Rad_hot | Rad_warm | Rad_cold.

Definition radiator_of (s : process_state_t) : radiator_view :=
  if Qle_bool (inside_temp s) TEMP_CRITICAL then Rad_ice
  else if valve_actual s >? 50 then Rad_hot
  else if valve_actual s >? 0 then Rad_warm
  else Rad_cold.

(** The screen [process_thread] draws: [display_render_failure] (with the
    time without control) when the pipes burst, [display_render] (with the
    runtime) otherwise. *)
Inductive screen := Screen_failure (time_without_heat : list ascii)
                  | Screen_normal (runtime_str : list ascii).

Definition screen_of (s : process_state_t) : screen :=
  if pipes_burst s then Screen_failure (format_runtime (time_without_control s) 16)
  else Screen_normal (format_runtime (runtime s) 16).




(** ** Basic facts *)

Ltac zcases :=
  repeat match goal with
  | |- context [?a >? ?b] => rewrite (Z.gtb_ltb a b)
  | |- context [?a <? ?b] => destruct (Z.ltb_spec a b); cbv iota in *
  | |- context [?a <=? ?b] => destruct (Z.leb_spec a b); cbv iota in *
  | H : context [?a <? ?b] |- _ => destruct (Z.ltb_spec a b); cbv iota in *
  | H : context [?a <=? ?b] |- _ => destruct (Z.leb_spec a b); cbv iota in *
  end.

Lemma clamp_percent_range v : 0 <= clamp_percent v <= 100.
Proof. unfold clamp_percent; cbv zeta; zcases; lia. Qed.

Lemma clamp_percent_id v : 0 <= v <= 100 -> clamp_percent v = v.
Proof. intros; unfold clamp_percent; cbv zeta; zcases; lia. Qed.

Lemma Qltb_iff a b : Qltb a b = true <-> (a < b)%Q.
Proof.
  unfold Qltb; rewrite negb_true_iff; split; intro H.
  - apply Qnot_le_lt; intro H'; apply Qle_bool_iff in H'; congruence.
  - destruct (Qle_bool b a) eqn:E; [|reflexivity].
    apply Qle_bool_iff in E; exfalso; apply (Qlt_not_le a b); assumption.
Qed.

Lemma Qltb_false a b : Qltb a b = false <-> (b <= a)%Q.
Proof.
  unfold Qltb; rewrite negb_false_iff; apply Qle_bool_iff.
Qed.

Lemma Qle_bool_false a b : Qle_bool a b = false <-> (b < a)%Q.
Proof.
  split; intro H.
  - apply Qnot_le_lt; intro H'; apply Qle_bool_iff in H'; congruence.
  - destruct (Qle_bool a b) eqn:E; [|reflexivity].
    apply Qle_bool_iff in E; exfalso; apply (Qlt_not_le b a); assumption.
Qed.

Lemma nth_Forall {A} (P : A -> Prop) (l : list A) (d : A) i :
  Forall P l -> P d -> P (nth i l d).
Proof.
  intros Hl Hd; revert i; induction Hl; intros [|i]; simpl; auto.
Qed.

Lemma bank_nth regs i : uint16_bank regs -> 0 <= nth i regs 0 < 65536.
Proof.
  intros [_ H]; apply (nth_Forall (fun r => 0 <= r < 65536)); [exact H | lia].
Qed.

Lemma status_update_burst t st pb :
  fst (status_update t st pb) = STATUS_BURST ->
  snd (status_update t st pb) = true \/
  (st = STATUS_BURST /\ snd (status_update t st pb) = pb).
Proof.
  unfold status_update.
  destruct (Qle_bool t TEMP_FROZEN), st, (Qle_bool t (-2)),
    (Qle_bool t TEMP_CRITICAL), (Qle_bool t TEMP_WARNING);
    simpl; intuition discriminate.
Qed.

(** Field-by-field description of one physics tick. *)
Lemma physics_burst s :
  pipes_burst s = true -> process_update_physics s = s.
Proof. intros H; unfold process_update_physics; rewrite H; reflexivity. Qed.

Lemma physics_fields s :
  pipes_burst s = false ->
  let s' := process_update_physics s in
  inside_temp s' = Qred (clamp_temp (inside_temp s +
      (heat_gain_of (valve_actual s') -
       heat_loss_of (inside_temp s) (outside_temp s)) * dt)%Q) /\
  valve_cmd s' = valve_cmd s /\
  setpoint s' = setpoint s /\
  mode s' = mode s /\
  outside_temp s' = outside_temp s /\
  (status s', pipes_burst s') = status_update (inside_temp s') (status s) false /\
  valve_actual s' = clamp_percent (valve_slew s) /\
  supply_temp s' = supply_temp s /\
  runtime s' = u32_incr (runtime s) /\
  heater_power s' = Qred (valve_fraction_of (valve_actual s') * HEATER_POWER_MAX)%Q /\
  controller_running s' = controller_running s.
Proof.
  intros H; unfold process_update_physics; rewrite H; simpl.
  repeat split; try reflexivity.
  destruct (status_update _ (status s) false); reflexivity.
Qed.

(** ** Range invariant of reachable states *)


Lemma control_law_range sp t : 0 <= control_law sp t <= 100.
Proof. unfold control_law; cbv zeta; apply clamp_percent_range. Qed.

Lemma range_inv_init : range_inv process_init.
Proof.
  unfold range_inv; simpl; repeat split; try lia; try discriminate;
    unfold Qle; simpl; lia.
Qed.

Lemma range_inv_physics s : range_inv s -> range_inv (process_update_physics s).
Proof.
  intros (Hc & Ha & Hsp & Hb).
  destruct (pipes_burst s) eqn:Ep.
  - rewrite physics_burst by assumption.
    exact (conj Hc (conj Ha (conj Hsp (fun _ => Ep)))).
  - pose proof (physics_fields s Ep) as F; cbv zeta in F.
    destruct F as (_ & Hvc & Hspt & _ & _ & Hst & Hva & _).
    unfold range_inv; rewrite Hvc, Hspt, Hva.
    refine (conj Hc (conj (clamp_percent_range _) (conj Hsp _))).
    intros HB.
    pose proof (status_update_burst
                  (inside_temp (process_update_physics s)) (status s) false) as U.
    rewrite <- Hst in U; simpl in U.
    destruct (U HB) as [Hp | [Hs _]]; [exact Hp|].
    specialize (Hb Hs); congruence.
Qed.

Lemma range_inv_controller s :
  range_inv s -> range_inv (process_run_controller s).
Proof.
  intros I; unfold process_run_controller.
  destruct (negb (controller_running s) || pipes_burst s); [exact I|].
  destruct (negb (mode_eqb (mode s) MODE_AUTO)); [exact I|].
  destruct I as (H1 & H2 & H3 & H4).
  exact (conj (control_law_range _ _) (conj H2 (conj H3 H4))).
Qed.

Lemma range_inv_crash s :
  range_inv s -> range_inv (process_controller_crash s).
Proof.
  intros (H1 & H2 & H3 & H4).
  refine (conj _ (conj H2 (conj H3 H4))); simpl; lia.
Qed.

Lemma range_inv_clear s :
  range_inv s -> range_inv (clear_controller_running s).
Proof. intros (H1 & H2 & H3 & H4); exact (conj H1 (conj H2 (conj H3 H4))). Qed.

Lemma setpoint_of_register r :
  0 <= r <= 400 -> (0 <= Qred (inject_Z r / 10) <= 40)%Q.
Proof.
  intros Hr; rewrite Qred_correct.
  unfold Qle, Qdiv, Qmult, Qinv, inject_Z; simpl; lia.
Qed.

Lemma range_inv_from_registers s regs :
  uint16_bank regs -> range_inv s -> range_inv (process_from_registers s regs).
Proof.
  intros Hb (H1 & H2 & H3 & H4).
  pose proof (bank_nth regs 1 Hb); pose proof (bank_nth regs 2 Hb).
  unfold range_inv, process_from_registers; cbv zeta.
  cbn [valve_cmd valve_actual setpoint status pipes_burst].
  refine (conj _ (conj H2 (conj _ H4))).
  - destruct (Z.leb_spec (nth 1 regs 0) 100); lia.
  - destruct (Z.leb_spec (nth 2 regs 0) 400); [|exact H3].
    apply setpoint_of_register; lia.
Qed.

Lemma range_inv_op o s : op_ok o -> range_inv s -> range_inv (apply_op o s).
Proof.
  destruct o; simpl; intros Hok I.
  - apply range_inv_physics; exact I.
  - apply range_inv_controller; exact I.
  - apply range_inv_crash; exact I.
  - apply range_inv_clear; exact I.
  - apply range_inv_from_registers; assumption.
Qed.

Lemma reachable_range_inv s : reachable s -> range_inv s.
Proof.
  induction 1.
  - exact range_inv_init.
  - apply range_inv_op; assumption.
Qed.

Lemma reachable_run_ops os s :
  reachable s -> Forall op_ok os -> reachable (run_ops os s).
Proof.
  intros Hs Hos; revert s Hs; induction Hos as [|o os Ho Hos IH];
    intros s Hs; simpl; [exact Hs|].
  apply IH; constructor; assumption.
Qed.

Lemma reachable_thread_step s :
  reachable s -> reachable (process_thread_step s).
Proof.
  intros Hs; unfold process_thread_step.
  assert (H1 : reachable (process_update_physics s))
    by (apply (reach_op Op_physics); [exact I | exact Hs]).
  destruct (controller_running (process_update_physics s)); [|exact H1].
  apply (reach_op Op_controller); [exact I | exact H1].
Qed.

Lemma reachable_iter_ticks n s : reachable s -> reachable (iter_ticks n s).
Proof.
  revert s; induction n as [|n IH]; intros s Hs; simpl; [exact Hs|].
  apply IH, reachable_thread_step, Hs.
Qed.

Lemma reachable_from_registers s regs :
  reachable s -> uint16_bank regs -> reachable (process_from_registers s regs).
Proof. intros Hs Hb; apply (reach_op (Op_from_registers regs)); assumption. Qed.

(** ** Terminal states: burst pipes and a dead controller *)

Lemma controller_burst s :
  pipes_burst s = true -> process_run_controller s = s.
Proof.
  intros H; unfold process_run_controller; rewrite H, orb_true_r; reflexivity.
Qed.

Lemma controller_dead s :
  controller_running s = false -> process_run_controller s = s.
Proof.
  intros H; unfold process_run_controller; rewrite H; reflexivity.
Qed.

Lemma burst_op o s :
  pipes_burst s = true -> status s = STATUS_BURST ->
  pipes_burst (apply_op o s) = true /\ status (apply_op o s) = STATUS_BURST.
Proof.
  intros Hp Hs; destruct o; simpl.
  - rewrite physics_burst by exact Hp; auto.
  - rewrite controller_burst by exact Hp; auto.
  - auto.
  - auto.
  - auto.
Qed.

Lemma burst_run_ops os s :
  pipes_burst s = true -> status s = STATUS_BURST ->
  pipes_burst (run_ops os s) = true /\ status (run_ops os s) = STATUS_BURST.
Proof.
  revert s; induction os as [|o os IH]; intros s Hp Hs; simpl; [auto|].
  destruct (burst_op o s Hp Hs); apply IH; assumption.
Qed.

Lemma dead_op o s :
  controller_running s = false -> controller_running (apply_op o s) = false.
Proof.
  intros H; destruct o; simpl.
  - destruct (pipes_burst s) eqn:Ep.
    + rewrite physics_burst by exact Ep; exact H.
    + pose proof (physics_fields s Ep) as F; cbv zeta in F.
      destruct F as (_ & _ & _ & _ & _ & _ & _ & _ & _ & _ & Hc); rewrite Hc; exact H.
  - rewrite controller_dead by exact H; exact H.
  - reflexivity.
  - reflexivity.
  - exact H.
Qed.

Lemma dead_run_ops os s :
  controller_running s = false -> controller_running (run_ops os s) = false.
Proof.
  revert s; induction os as [|o os IH]; intros s H; simpl; [exact H|].
  apply IH, dead_op, H.
Qed.

Lemma physics_dead_valve s :
  range_inv s -> controller_running s = false ->
  valve_actual (process_update_physics s) = valve_actual s.
Proof.
  intros (_ & Ha & _) Hc.
  destruct (pipes_burst s) eqn:Ep.
  - rewrite physics_burst by exact Ep; reflexivity.
  - pose proof (physics_fields s Ep) as F; cbv zeta in F.
    destruct F as (_ & _ & _ & _ & _ & _ & Hva & _); rewrite Hva.
    unfold valve_slew; rewrite Hc; apply clamp_percent_id; exact Ha.
Qed.

Lemma physics_valve_cmd s :
  valve_cmd (process_update_physics s) = valve_cmd s.
Proof.
  destruct (pipes_burst s) eqn:Ep.
  - rewrite physics_burst by exact Ep; reflexivity.
  - pose proof (physics_fields s Ep) as F; cbv zeta in F.
    destruct F as (_ & Hvc & _); exact Hvc.
Qed.

(** ** Doubles compared by value *)

Ltac qcases :=
  repeat match goal with
  | |- context [Qltb ?a ?b] =>
      let E := fresh "E" in
      destruct (Qltb a b) eqn:E;
      [apply Qltb_iff in E | apply Qltb_false in E]; cbv iota in *
  | |- context [Qle_bool ?a ?b] =>
      let E := fresh "E" in
      destruct (Qle_bool a b) eqn:E;
      [apply Qle_bool_iff in E | apply Qle_bool_false in E]; cbv iota in *
  | H : context [Qltb ?a ?b] |- _ =>
      let E := fresh "E" in
      destruct (Qltb a b) eqn:E;
      [apply Qltb_iff in E | apply Qltb_false in E]; cbv iota in *
  | H : context [Qle_bool ?a ?b] |- _ =>
      let E := fresh "E" in
      destruct (Qle_bool a b) eqn:E;
      [apply Qle_bool_iff in E | apply Qle_bool_false in E]; cbv iota in *
  end.

#[local] Instance Qltb_proper : Proper (Qeq ==> Qeq ==> eq) Qltb.
Proof.
  intros a c H1 b d H2; qcases; try reflexivity; exfalso; lra.
Qed.

#[local] Instance Qle_bool_proper : Proper (Qeq ==> Qeq ==> eq) Qle_bool.
Proof.
  intros a c H1 b d H2; qcases; try reflexivity; exfalso; lra.
Qed.

#[local] Instance Qred_eq_proper : Proper (Qeq ==> eq) Qred.
Proof. intros a b H; apply Qred_complete, H. Qed.

#[local] Instance clamp_temp_proper : Proper (Qeq ==> Qeq) clamp_temp.
Proof. intros x y H; unfold clamp_temp; cbv zeta; qcases; lra. Qed.

Lemma clamp_temp_range t : (-30 <= clamp_temp t <= 50)%Q.
Proof. unfold clamp_temp; cbv zeta; qcases; lra. Qed.

(** [(int)x] is the floor for non-negative [x] and minus the floor of [-x]
    otherwise. *)
Lemma trunc_to_int_floor x :
  trunc_to_int x = if Qle_bool 0 x then Qfloor x else - Qfloor (- x).
Proof.
  destruct x as [n d]; unfold trunc_to_int.
  destruct (Qle_bool 0 (n # d)) eqn:E.
  - apply Qle_bool_iff in E; unfold Qle in E; simpl in E; simpl.
    apply Z.quot_div_nonneg; lia.
  - apply Qle_bool_false in E; unfold Qlt in E; simpl in E; simpl.
    rewrite <- (Z.opp_involutive n) at 1.
    rewrite Z.quot_opp_l by lia.
    rewrite Z.quot_div_nonneg by lia; reflexivity.
Qed.

#[local] Instance trunc_to_int_proper : Proper (Qeq ==> eq) trunc_to_int.
Proof.
  intros x y H; rewrite !trunc_to_int_floor.
  rewrite (Qle_bool_proper 0%Q 0%Q (Qeq_refl 0%Q) x y H), (Qfloor_comp x y H),
    (Qfloor_comp (- x) (- y) (Qopp_comp x y H)).
  reflexivity.
Qed.

#[local] Instance control_law_proper : Proper (Qeq ==> Qeq ==> eq) control_law.
Proof.
  intros sp sp' Hs t t' Ht; unfold control_law; cbv zeta.
  assert (He : (sp - t == sp' - t')%Q) by (rewrite Hs, Ht; reflexivity).
  assert (Hv : (50 + (sp - t) / 2 * 50 == 50 + (sp' - t') / 2 * 50)%Q)
    by (rewrite He; reflexivity).
  rewrite (Qltb_proper 2%Q 2%Q (Qeq_refl _) _ _ He),
    (Qltb_proper _ _ He (Qopp 2) (Qopp 2) (Qeq_refl _)),
    (trunc_to_int_proper _ _ Hv).
  reflexivity.
Qed.

(** ** Each step depends on the values of the state only *)

Ltac proj :=
  cbn [inside_temp valve_cmd setpoint mode outside_temp status valve_actual
       supply_temp runtime heater_power controller_running time_without_control
       pipes_burst] in *.

Ltac equiv_close :=
  unfold state_equiv; proj; repeat split; try reflexivity; try assumption.

Lemma state_equiv_refl s : state_equiv s s.
Proof. equiv_close. Qed.

Lemma physics_equiv a b :
  state_equiv a b ->
  state_equiv (process_update_physics a) (process_update_physics b).
Proof.
  destruct a as [i1 vc1 sp1 m1 o1 st1 va1 su1 rt1 hp1 cr1 tw1 pb1],
           b as [i2 vc2 sp2 m2 o2 st2 va2 su2 rt2 hp2 cr2 tw2 pb2].
  unfold state_equiv; proj.
  intros (Hi & <- & Hsp & <- & Ho & <- & <- & Hsu & <- & Hhp & <- & <- & <-).
  unfold process_update_physics; proj.
  destruct pb1; [equiv_close|].
  unfold valve_slew; proj.
  remember (clamp_percent _) as va eqn:Hva.
  assert (HT : Qred (clamp_temp (i1 + (heat_gain_of va - heat_loss_of i1 o1) * dt)%Q)
             = Qred (clamp_temp (i2 + (heat_gain_of va - heat_loss_of i2 o2) * dt)%Q)).
  { apply Qred_complete, clamp_temp_proper; unfold heat_loss_of.
    rewrite Hi, Ho; reflexivity. }
  rewrite HT; equiv_close.
Qed.

Lemma controller_equiv a b :
  state_equiv a b ->
  state_equiv (process_run_controller a) (process_run_controller b).
Proof.
  destruct a as [i1 vc1 sp1 m1 o1 st1 va1 su1 rt1 hp1 cr1 tw1 pb1],
           b as [i2 vc2 sp2 m2 o2 st2 va2 su2 rt2 hp2 cr2 tw2 pb2].
  unfold state_equiv; proj.
  intros (Hi & <- & Hsp & <- & Ho & <- & <- & Hsu & <- & Hhp & <- & <- & <-).
  unfold process_run_controller; proj.
  destruct (negb cr1 || pb1); [equiv_close|].
  destruct (negb (mode_eqb m1 MODE_AUTO)); [equiv_close|].
  equiv_close; apply control_law_proper; assumption.
Qed.

Lemma from_registers_equiv a b regs :
  state_equiv a b ->
  state_equiv (process_from_registers a regs) (process_from_registers b regs).
Proof.
  destruct a as [i1 vc1 sp1 m1 o1 st1 va1 su1 rt1 hp1 cr1 tw1 pb1],
           b as [i2 vc2 sp2 m2 o2 st2 va2 su2 rt2 hp2 cr2 tw2 pb2].
  unfold state_equiv; proj.
  intros (Hi & <- & Hsp & <- & Ho & <- & <- & Hsu & <- & Hhp & <- & <- & <-).
  unfold process_from_registers; cbv zeta; equiv_close.
  destruct (nth 2 regs 0 <=? 400); [reflexivity | assumption].
Qed.

Lemma thread_step_equiv a b :
  state_equiv a b ->
  state_equiv (process_thread_step a) (process_thread_step b).
Proof.
  intros H; unfold process_thread_step.
  pose proof (physics_equiv a b H) as P.
  assert (Hc : controller_running (process_update_physics a)
             = controller_running (process_update_physics b))
    by (destruct P as (_ & _ & _ & _ & _ & _ & _ & _ & _ & _ & Hc & _); exact Hc).
  rewrite <- Hc.
  destruct (controller_running (process_update_physics a));
    [apply controller_equiv|]; exact P.
Qed.

(** ** Status ladder and control law *)

Lemma status_update_ladder t st :
  st <> STATUS_BURST ->
  let r := status_update t st false in
  (fst r = STATUS_OK <-> 10 < t)%Q /\
  (fst r = STATUS_WARNING <-> 5 < t <= 10)%Q /\
  (fst r = STATUS_CRITICAL <-> 0 < t <= 5)%Q /\
  (fst r = STATUS_FROZEN <-> -2 < t <= 0)%Q /\
  (fst r = STATUS_BURST <-> t <= -2)%Q /\
  (snd r = true <-> t <= -2)%Q.
Proof.
  intros Hst.
  assert (Hne : status_eqb st STATUS_BURST = false)
    by (destruct st; [reflexivity.. | congruence]).
  unfold status_update, TEMP_FROZEN, TEMP_CRITICAL, TEMP_WARNING; cbv zeta.
  rewrite Hne; cbn [negb].
  qcases; cbn [fst snd]; intuition (try discriminate; try (exfalso; lra)).
Qed.

Lemma trunc_mid e :
  (-2 <= e <= 2)%Q ->
  trunc_to_int (50 + e / 2 * 50)%Q = Qfloor (50 + 50 * (e / 2))%Q /\
  0 <= Qfloor (50 + 50 * (e / 2))%Q <= 100.
Proof.
  intros He.
  assert (Hx : (50 + e / 2 * 50 == 50 + 50 * (e / 2))%Q) by ring.
  assert (Hr : (0 <= 50 + 50 * (e / 2) <= 100)%Q).
  { assert (Hq : (50 * (e / 2) == 25 * e)%Q) by field.
    rewrite Hq; lra. }
  rewrite (trunc_to_int_proper _ _ Hx), trunc_to_int_floor.
  replace (Qle_bool 0 (50 + 50 * (e / 2))) with true
    by (symmetry; apply Qle_bool_iff; lra).
  split; [reflexivity|].
  pose proof (Qfloor_resp_le 0%Q _ (proj1 Hr)) as A.
  pose proof (Qfloor_resp_le _ 100%Q (proj2 Hr)) as B.
  change (Qfloor 0%Q) with 0 in A; change (Qfloor 100%Q) with 100 in B; lia.
Qed.

(** A concrete register bank is a [uint16_t] bank. *)
Ltac bank_ok :=
  split; [reflexivity|]; repeat (apply Forall_cons; [lia|]); apply Forall_nil.

(** * Claims *)

(** ** C2: register writes are validated field by field *)

(** C2 (counterexample): one write of the register bank with 150 in the
    valve-command register and an in-domain setpoint and mode: the valve
    command is left unchanged, but the setpoint and the mode of the same
    write are applied, so the request is not rejected as a whole. *)
Lemma from_registers_partial_write :
  let s' := process_from_registers process_init [0; 150; 300; 0; 0; 0; 0; 0; 0; 0] in
  valve_cmd s' = valve_cmd process_init /\
  ~ (setpoint s' == setpoint process_init)%Q /\
  mode s' <> mode process_init.
Proof.
  vm_compute; split; [reflexivity | split; [discriminate | discriminate]].
Qed.

(** C2 (amended): [process_from_registers] checks each writable register on
    its own: HR[1] becomes [valve_cmd] only if it is at most 100, HR[2]/10
    becomes [setpoint] only if HR[2] is at most 400, HR[3] becomes [mode]
    only if it is at most 1; an out-of-domain register leaves its own field
    unchanged while the other fields of the same bank are still applied, no
    error is produced, and no other field changes.  In particular a value of
    150 in HR[1] leaves [valve_cmd] unchanged. *)
Theorem from_registers_fieldwise s regs :
  uint16_bank regs ->
  let s' := process_from_registers s regs in
  let r1 := nth 1 regs 0 in
  let r2 := nth 2 regs 0 in
  let r3 := nth 3 regs 0 in
  (r1 <= 100 -> valve_cmd s' = r1) /\
  (100 < r1 -> valve_cmd s' = valve_cmd s) /\
  (r2 <= 400 -> (setpoint s' == inject_Z r2 / 10)%Q) /\
  (400 < r2 -> setpoint s' = setpoint s) /\
  (r3 <= 1 -> mode_code (mode s') = r3) /\
  (1 < r3 -> mode s' = mode s) /\
  (r1 = 150 -> valve_cmd s' = valve_cmd s) /\
  inside_temp s' = inside_temp s /\ outside_temp s' = outside_temp s /\
  status s' = status s /\ valve_actual s' = valve_actual s /\
  supply_temp s' = supply_temp s /\ runtime s' = runtime s /\
  heater_power s' = heater_power s /\
  controller_running s' = controller_running s /\
  time_without_control s' = time_without_control s /\
  pipes_burst s' = pipes_burst s.
Proof.
  intros Hb; pose proof (bank_nth regs 3 Hb) as H3.
  unfold process_from_registers; cbv zeta; proj.
  repeat split; try reflexivity; intros Hr.
  - destruct (Z.leb_spec (nth 1 regs 0) 100); [reflexivity | lia].
  - destruct (Z.leb_spec (nth 1 regs 0) 100); [lia | reflexivity].
  - destruct (Z.leb_spec (nth 2 regs 0) 400); [apply Qred_correct | lia].
  - destruct (Z.leb_spec (nth 2 regs 0) 400); [lia | reflexivity].
  - destruct (Z.leb_spec (nth 3 regs 0) 1); [|lia].
    unfold mode_of_code; destruct (Z.eqb_spec (nth 3 regs 0) 1); simpl; lia.
  - destruct (Z.leb_spec (nth 3 regs 0) 1); [lia | reflexivity].
  - rewrite Hr; reflexivity.
Qed.

(** ** C3: BURST is terminal *)

(** C3: from a reachable state whose status is BURST, after any sequence of
    operations (ticks, controller runs, crashes, register writes) the status
    is still BURST and a physics tick changes nothing: inside temperature,
    valve position, heater power and runtime all stay as they are. *)
Theorem burst_is_terminal s os :
  reachable s -> status s = STATUS_BURST ->
  let s' := run_ops os s in
  status s' = STATUS_BURST /\ process_update_physics s' = s'.
Proof.
  intros Hr Hs; cbv zeta.
  destruct (reachable_range_inv s Hr) as (_ & _ & _ & Hb).
  destruct (burst_run_ops os s (Hb Hs) Hs) as [Hp Hs'].
  split; [exact Hs' | apply physics_burst, Hp].
Qed.

(** ** C4: the controller crash is terminal *)

(** C4: [process_controller_crash] clears [controller_running] and sets
    [valve_cmd] to 0; from then on, after any sequence of operations,
    [controller_running] is still false, [process_run_controller] changes
    nothing, and a physics tick moves neither [valve_actual] nor
    [valve_cmd]. *)
Theorem crash_is_terminal s os :
  reachable s -> Forall op_ok os ->
  let c := process_controller_crash s in
  let s' := run_ops os c in
  controller_running c = false /\ valve_cmd c = 0 /\
  controller_running s' = false /\
  process_run_controller s' = s' /\
  valve_actual (process_update_physics s') = valve_actual s' /\
  valve_cmd (process_update_physics s') = valve_cmd s'.
Proof.
  intros Hr Hos; cbv zeta.
  assert (Hc : reachable (process_controller_crash s))
    by (apply (reach_op Op_crash); [exact I | exact Hr]).
  pose proof (reachable_run_ops os _ Hc Hos) as Hr'.
  assert (Hd : controller_running (run_ops os (process_controller_crash s)) = false)
    by (apply dead_run_ops; reflexivity).
  refine (conj eq_refl (conj eq_refl (conj Hd (conj _ (conj _ _))))).
  - apply controller_dead, Hd.
  - apply physics_dead_valve; [apply reachable_range_inv, Hr' | exact Hd].
  - apply physics_valve_cmd.
Qed.

(** ** C5: the AUTO control law *)

(** C5 (counterexample): the first controller run after the first tick from
    [process_init] (setpoint 20, inside temperature 2497/120, error inside
    the deadband) gives [valve_cmd = 29], while [50 + 50*(error/d)] is
    about 29.8: the command is the truncated value, not the formula's. *)
Lemma controller_truncates :
  let s := process_update_physics process_init in
  controller_running s = true /\ mode s = MODE_AUTO /\ pipes_burst s = false /\
  valve_cmd (process_run_controller s) = 29 /\
  ~ (inject_Z (valve_cmd (process_run_controller s))
     == spec_valve_cmd (setpoint s) (inside_temp s))%Q.
Proof.
  vm_compute; split; [reflexivity|]; split; [reflexivity|];
    split; [reflexivity|]; split; [reflexivity|]; discriminate.
Qed.

(** C5 (amended): with the controller alive, AUTO mode and pipes not burst,
    one controller run sets [valve_cmd] to 100 if [error > 2], to 0 if
    [error < -2], and otherwise to [(int)(50 + 50*(error/2))], the value
    truncated to an integer (its floor, as it is non-negative), which lies
    in [0,100] so the clamp does not act; with setpoint 20 and inside
    temperature 15 the result is 100. *)
Theorem controller_auto_law s :
  controller_running s = true -> mode s = MODE_AUTO -> pipes_burst s = false ->
  let error := (setpoint s - inside_temp s)%Q in
  let v := valve_cmd (process_run_controller s) in
  ((2 < error)%Q -> v = 100) /\
  ((error < -2)%Q -> v = 0) /\
  ((-2 <= error <= 2)%Q -> v = Qfloor (50 + 50 * (error / 2))%Q /\ 0 <= v <= 100) /\
  ((setpoint s == 20)%Q -> (inside_temp s == 15)%Q -> v = 100).
Proof.
  intros Hc Hm Hp; cbv zeta.
  unfold process_run_controller; rewrite Hc, Hm, Hp; cbn [negb orb mode_eqb].
  change (mode_code MODE_AUTO =? mode_code MODE_AUTO) with true; cbn [negb].
  proj; unfold control_law; cbv zeta.
  assert (Case1 : (2 < setpoint s - inside_temp s)%Q ->
            clamp_percent (if Qltb 2 (setpoint s - inside_temp s) then 100
              else if Qltb (setpoint s - inside_temp s) (- (2)) then 0
              else trunc_to_int (50 + (setpoint s - inside_temp s) / 2 * 50)%Q)
            = 100).
  { intros H; apply Qltb_iff in H; rewrite H; reflexivity. }
  split; [exact Case1|]; split; [|split].
  - intros H.
    replace (Qltb 2 (setpoint s - inside_temp s)) with false
      by (symmetry; apply Qltb_false; lra).
    replace (Qltb (setpoint s - inside_temp s) (- (2))) with true
      by (symmetry; apply Qltb_iff; lra).
    reflexivity.
  - intros H.
    replace (Qltb 2 (setpoint s - inside_temp s)) with false
      by (symmetry; apply Qltb_false; lra).
    replace (Qltb (setpoint s - inside_temp s) (- (2))) with false
      by (symmetry; apply Qltb_false; lra).
    destruct (trunc_mid _ H) as [-> Hr].
    rewrite clamp_percent_id by exact Hr; split; [reflexivity | exact Hr].
  - intros H1 H2; apply Case1; rewrite H1, H2; reflexivity.
Qed.

(** ** C6: the thermal update *)

(** C6: a tick from a state whose pipes are not burst sets the inside
    temperature to the clamp into [-30, 50] of
    [insideTemp + (heatGain - heatLoss) * dt], with
    [heatLoss = 0.015 * (insideTemp - outsideTemp)],
    [heatGain = (valveActual/100) * 80 / 30] for the valve position of the
    tick (after its slew) and [dt = 1]; from [process_init] (inside 20,
    outside -15, valve 50) the result is exactly the analytic value
    [20 + (50/100*80/30 - 0.015*35)*1 = 2497/120]. *)
Theorem thermal_update s :
  pipes_burst s = false ->
  let s' := process_update_physics s in
  let heat_loss := (HEAT_LOSS_FACTOR * (inside_temp s - outside_temp s))%Q in
  let heat_gain :=
    (inject_Z (valve_actual s') / 100 * HEATER_POWER_MAX / THERMAL_MASS)%Q in
  (dt == 1)%Q /\
  (inside_temp s' == clamp_temp (inside_temp s + (heat_gain - heat_loss) * dt))%Q /\
  (-30 <= inside_temp s' <= 50)%Q /\
  (inside_temp (process_update_physics process_init)
     == 20 + (50 / 100 * 80 / 30 - (15 # 1000) * (20 - (-15))) * 1)%Q /\
  (inside_temp (process_update_physics process_init) == 2497 # 120)%Q.
Proof.
  intros Hp; cbv zeta.
  pose proof (physics_fields s Hp) as F; cbv zeta in F.
  destruct F as (Ht & _).
  split; [reflexivity|]; split; [|split; [|split]].
  - rewrite Ht, Qred_correct; apply clamp_temp_proper.
    unfold heat_gain_of, heat_loss_of, valve_fraction_of; ring.
  - rewrite Ht, Qred_correct; apply clamp_temp_range.
  - reflexivity.
  - reflexivity.
Qed.

(** ** C7: the number of live connections *)

(** C7 (counterexample): 65 accepted connections, none of which has
    disconnected, leave 65 active clients, more than [MAX_CONNECTIONS]. *)
Lemma accept_beyond_max :
  server_run 0 (repeat (Ev_accepted true true) 65) = 65 /\ MAX_CONNECTIONS < 65.
Proof. vm_compute; split; reflexivity. Qed.

(** C7 (amended): [MAX_CONNECTIONS] (64) is only the listen backlog given
    to [modbus_tcp_listen]; the accept loop checks the active count against
    no bound, so every accepted connection whose handler thread starts adds
    one to it: [n] such accepts from any count [c] give [c + n]. *)
Theorem accept_unbounded c n :
  listen_backlog = MAX_CONNECTIONS /\ MAX_CONNECTIONS = 64 /\
  server_run c (repeat (Ev_accepted true true) n) = c + Z.of_nat n.
Proof.
  split; [reflexivity | split; [reflexivity|]].
  revert c; induction n as [|n IH]; intros c; simpl; [lia|].
  unfold server_run in *; simpl; rewrite IH; lia.
Qed.

(** ** C8: determinism of the tick sequence *)

(** C8: two runs of [process_thread] ticks started from identical states
    (equal as values), with the same register writes before the same ticks,
    produce identical trajectories: the states after every tick are equal as
    values. *)
Theorem trajectory_deterministic s1 s2 writes :
  state_equiv s1 s2 ->
  Forall2 state_equiv (trajectory s1 writes) (trajectory s2 writes).
Proof.
  revert s1 s2; induction writes as [|w writes IH]; intros s1 s2 H; simpl.
  - constructor.
  - assert (H1 : state_equiv (match w with
                              | Some regs => process_from_registers s1 regs
                              | None => s1 end)
                             (match w with
                              | Some regs => process_from_registers s2 regs
                              | None => s2 end))
      by (destruct w; [apply from_registers_equiv | ]; exact H).
    pose proof (thread_step_equiv _ _ H1) as H2.
    constructor; [exact H2 | apply IH, H2].
Qed.

(** ** C9: ranges of the process variables *)

(** C9: in every state reachable from [process_init] by the operations
    [process_update_physics], [process_run_controller],
    [process_controller_crash] and [process_from_registers] (with [uint16_t]
    registers), [valve_cmd] and [valve_actual] are in [0,100] and [setpoint]
    is in [0,40]. *)
Theorem reachable_ranges s :
  reachable s ->
  0 <= valve_cmd s <= 100 /\ 0 <= valve_actual s <= 100 /\
  (0 <= setpoint s <= 40)%Q.
Proof.
  intros Hr; destruct (reachable_range_inv s Hr) as (H1 & H2 & H3 & _).
  exact (conj H1 (conj H2 H3)).
Qed.

(** ** C10: the status ladder *)

(** C10: for a tick entered with [pipes_burst] false, the new status is
    determined by the new inside temperature [t] alone: OK iff [t > 10],
    WARNING iff [5 < t <= 10], CRITICAL iff [0 < t <= 5], FROZEN iff
    [-2 < t <= 0], BURST iff [t <= -2], and [pipes_burst] is set exactly
    when [t <= -2] and then stays set; and there is a reachable state in
    which a tick lowers the status from CRITICAL to WARNING. *)
Theorem status_ladder s :
  reachable s -> pipes_burst s = false ->
  let s' := process_update_physics s in
  let t := inside_temp s' in
  ((status s' = STATUS_OK <-> 10 < t) /\
   (status s' = STATUS_WARNING <-> 5 < t <= 10) /\
   (status s' = STATUS_CRITICAL <-> 0 < t <= 5) /\
   (status s' = STATUS_FROZEN <-> -2 < t <= 0) /\
   (status s' = STATUS_BURST <-> t <= -2) /\
   (pipes_burst s' = true <-> t <= -2))%Q /\
  (pipes_burst s' = true -> forall os, pipes_burst (run_ops os s') = true) /\
  (exists s0, reachable s0 /\ pipes_burst s0 = false /\
     status s0 = STATUS_CRITICAL /\
     status (process_update_physics s0) = STATUS_WARNING).
Proof.
  intros Hr Hp; cbv zeta.
  destruct (reachable_range_inv s Hr) as (_ & _ & _ & Hb).
  assert (Hst : status s <> STATUS_BURST) by (intros E; specialize (Hb E); congruence).
  pose proof (physics_fields s Hp) as F; cbv zeta in F.
  destruct F as (_ & _ & _ & _ & _ & Hsu & _).
  pose proof (status_update_ladder (inside_temp (process_update_physics s)) _ Hst) as L.
  cbv zeta in L; rewrite <- Hsu in L; cbn [fst snd] in L.
  split; [exact L|]; split.
  - intros HB os.
    destruct L as (_ & _ & _ & _ & L5 & L6).
    apply (burst_run_ops os); [exact HB | apply L5, L6, HB].
  - exists recovery_state; split; [|vm_compute; split; [|split]; reflexivity].
    apply reachable_iter_ticks, reachable_from_registers;
      [apply reachable_iter_ticks, reachable_from_registers; [constructor|] |];
      bank_ok.
Qed.

(** * Instances of the claims at concrete inputs *)

Lemma from_registers_fieldwise_witness :
  uint16_bank [0; 150; 300; 0; 0; 0; 0; 0; 0; 0] /\
  valve_cmd (process_from_registers process_init
               [0; 150; 300; 0; 0; 0; 0; 0; 0; 0]) = valve_cmd process_init.
Proof.
  assert (Hb : uint16_bank [0; 150; 300; 0; 0; 0; 0; 0; 0; 0]) by bank_ok.
  split; [exact Hb|].
  destruct (from_registers_fieldwise process_init _ Hb)
    as (_ & _ & _ & _ & _ & _ & H & _).
  apply H; reflexivity.
Defined.

Lemma burst_is_terminal_witness :
  reachable burst_state /\ status burst_state = STATUS_BURST /\
  status (run_ops [Op_from_registers reheating_bank; Op_physics; Op_controller]
            burst_state) = STATUS_BURST.
Proof.
  assert (Hr : reachable burst_state)
    by (apply reachable_iter_ticks, reachable_from_registers;
        [constructor | bank_ok]).
  assert (Hs : status burst_state = STATUS_BURST) by (vm_compute; reflexivity).
  split; [exact Hr | split; [exact Hs|]].
  exact (proj1 (burst_is_terminal burst_state
                  [Op_from_registers reheating_bank; Op_physics; Op_controller]
                  Hr Hs)).
Defined.

Lemma crash_is_terminal_witness :
  reachable process_init /\ Forall op_ok [Op_physics; Op_controller] /\
  process_run_controller
    (run_ops [Op_physics; Op_controller] (process_controller_crash process_init))
  = run_ops [Op_physics; Op_controller] (process_controller_crash process_init).
Proof.
  assert (Hr : reachable process_init) by constructor.
  assert (Hos : Forall op_ok [Op_physics; Op_controller])
    by (repeat constructor).
  split; [exact Hr | split; [exact Hos|]].
  exact (proj1 (proj2 (proj2 (proj2
           (crash_is_terminal process_init _ Hr Hos))))).
Defined.

Lemma controller_auto_law_witness :
  let s := process_update_physics process_init in
  controller_running s = true /\ mode s = MODE_AUTO /\ pipes_burst s = false /\
  0 <= valve_cmd (process_run_controller s) <= 100.
Proof.
  cbv zeta.
  assert (Hc : controller_running (process_update_physics process_init) = true)
    by (vm_compute; reflexivity).
  assert (Hm : mode (process_update_physics process_init) = MODE_AUTO)
    by (vm_compute; reflexivity).
  assert (Hp : pipes_burst (process_update_physics process_init) = false)
    by (vm_compute; reflexivity).
  split; [exact Hc | split; [exact Hm | split; [exact Hp|]]].
  destruct (controller_auto_law _ Hc Hm Hp) as (_ & _ & H & _).
  apply H; vm_compute; split; discriminate.
Defined.

Lemma thermal_update_witness :
  pipes_burst process_init = false /\
  (-30 <= inside_temp (process_update_physics process_init) <= 50)%Q.
Proof.
  assert (Hp : pipes_burst process_init = false) by reflexivity.
  split; [exact Hp|].
  exact (proj1 (proj2 (proj2 (thermal_update process_init Hp)))).
Defined.

Lemma trajectory_deterministic_witness :
  state_equiv process_init process_init /\
  Forall2 state_equiv
    (trajectory process_init [None; Some cooling_bank; None])
    (trajectory process_init [None; Some cooling_bank; None]).
Proof.
  assert (H : state_equiv process_init process_init)
    by (unfold state_equiv; repeat split; reflexivity).
  split; [exact H|].
  exact (trajectory_deterministic _ _ _ H).
Defined.

Lemma reachable_ranges_witness :
  reachable process_init /\
  0 <= valve_cmd process_init <= 100 /\ 0 <= valve_actual process_init <= 100 /\
  (0 <= setpoint process_init <= 40)%Q.
Proof.
  assert (Hr : reachable process_init) by constructor.
  split; [exact Hr|].
  exact (reachable_ranges process_init Hr).
Defined.

Lemma status_ladder_witness :
  reachable process_init /\ pipes_burst process_init = false /\
  (status (process_update_physics process_init) = STATUS_OK <->
   10 < inside_temp (process_update_physics process_init))%Q.
Proof.
  assert (Hr : reachable process_init) by constructor.
  assert (Hp : pipes_burst process_init = false) by reflexivity.
  split; [exact Hr | split; [exact Hp|]].
  exact (proj1 (proj1 (status_ladder process_init Hr Hp))).
Defined.

(** * Further properties of the code *)

(** ** Status, temperatures and counters of the reachable states *)

Lemma status_update_classify t st :
  st <> STATUS_BURST ->
  fst (status_update t st false) = classify_temp t /\
  (snd (status_update t st false) = true <-> classify_temp t = STATUS_BURST).
Proof.
  intros Hst.
  assert (Hne : status_eqb st STATUS_BURST = false)
    by (destruct st; [reflexivity.. | congruence]).
  unfold status_update, classify_temp; rewrite Hne; cbn [negb].
  destruct (Qle_bool t TEMP_FROZEN), (Qle_bool t (-2)),
    (Qle_bool t TEMP_CRITICAL), (Qle_bool t TEMP_WARNING);
    cbn [fst snd]; intuition discriminate.
Qed.

Lemma u32_incr_range x : 0 <= u32_incr x < 2 ^ 32.
Proof. unfold u32_incr; apply Z.mod_pos_bound; lia. Qed.

Lemma heater_power_range va :
  0 <= va <= 100 ->
  (0 <= Qred (valve_fraction_of va * HEATER_POWER_MAX) <= 80)%Q.
Proof.
  intros Hva; rewrite Qred_correct.
  unfold valve_fraction_of, HEATER_POWER_MAX, Qle, Qdiv, Qmult, Qinv, inject_Z;
    simpl; lia.
Qed.

Lemma ext_inv_init : ext_inv process_init.
Proof.
  unfold ext_inv; simpl; repeat split; try lia; try discriminate;
    try (unfold Qle; simpl; lia).
  exists 200; split; [lia | reflexivity].
Qed.

Lemma ext_inv_physics s :
  range_inv s -> ext_inv s -> ext_inv (process_update_physics s).
Proof.
  intros R E.
  destruct (pipes_burst s) eqn:Ep; [rewrite physics_burst by exact Ep; exact E|].
  destruct E as (Hi & Ho & Hsu & Hsp & Hhp & Hst & Hpb & Htw & Hrt & Htr).
  assert (Hnb : status s <> STATUS_BURST) by (intros Hb; apply Hpb in Hb; congruence).
  pose proof (physics_fields s Ep) as F; cbv zeta in F.
  destruct F as (Hi' & Hvc' & Hsp' & _ & Ho' & Hst' & Hva' & Hsu' & Hrt' & Hhp' & Hc').
  pose proof (status_update_classify (inside_temp (process_update_physics s))
                (status s) Hnb) as [U1 U2].
  rewrite <- Hst' in U1, U2; cbn [fst snd] in U1, U2.
  unfold ext_inv; rewrite Ho', Hsu', Hsp', Hrt'.
  refine (conj _ (conj Ho (conj Hsu (conj Hsp (conj _ (conj U1 (conj _ (conj _
    (conj (u32_incr_range _) _))))))))).
  - rewrite Hi', Qred_correct; apply clamp_temp_range.
  - rewrite Hhp', Hva'; apply heater_power_range, clamp_percent_range.
  - rewrite U1; exact U2.
  - rewrite Hc'; intros Hc; unfold process_update_physics; rewrite Ep; simpl.
    rewrite Hc; apply Htw, Hc.
  - unfold process_update_physics; rewrite Ep; simpl.
    destruct (negb (controller_running s)); [apply u32_incr_range | exact Htr].
Qed.

Lemma ext_inv_controller s : ext_inv s -> ext_inv (process_run_controller s).
Proof.
  intros E; unfold process_run_controller.
  destruct (negb (controller_running s) || pipes_burst s); [exact E|].
  destruct (negb (mode_eqb (mode s) MODE_AUTO)); [exact E|].
  unfold ext_inv in *; proj; exact E.
Qed.

Lemma ext_inv_crash s : ext_inv s -> ext_inv (process_controller_crash s).
Proof.
  intros (H1 & H2 & H3 & H4 & H5 & H6 & H7 & H8 & H9 & H10).
  unfold ext_inv, process_controller_crash; proj.
  refine (conj H1 (conj H2 (conj H3 (conj H4 (conj H5 (conj H6 (conj H7
    (conj _ (conj H9 _))))))))); [discriminate | lia].
Qed.

Lemma ext_inv_clear s : ext_inv s -> ext_inv (clear_controller_running s).
Proof.
  intros (H1 & H2 & H3 & H4 & H5 & H6 & H7 & H8 & H9 & H10).
  unfold ext_inv, clear_controller_running; proj.
  refine (conj H1 (conj H2 (conj H3 (conj H4 (conj H5 (conj H6 (conj H7
    (conj _ (conj H9 H10))))))))); discriminate.
Qed.

Lemma ext_inv_from_registers s regs :
  uint16_bank regs -> ext_inv s -> ext_inv (process_from_registers s regs).
Proof.
  intros Hb (H1 & H2 & H3 & H4 & H5 & H6 & H7 & H8 & H9 & H10).
  pose proof (bank_nth regs 2 Hb).
  unfold ext_inv, process_from_registers; cbv zeta; proj.
  refine (conj H1 (conj H2 (conj H3 (conj _ (conj H5 (conj H6 (conj H7
    (conj H8 (conj H9 H10))))))))).
  destruct (Z.leb_spec (nth 2 regs 0) 400); [|exact H4].
  exists (nth 2 regs 0); split; [lia | apply Qred_correct].
Qed.

Lemma reachable_ext_inv s : reachable s -> ext_inv s.
Proof.
  intros Hs; induction Hs as [|o s Ho Hs IH].
  - exact ext_inv_init.
  - destruct o; simpl.
    + apply ext_inv_physics; [apply reachable_range_inv|]; assumption.
    + apply ext_inv_controller; assumption.
    + apply ext_inv_crash; assumption.
    + apply ext_inv_clear; assumption.
    + apply ext_inv_from_registers; assumption.
Qed.

(** ** The register image *)

Lemma trunc_to_int_Z k : trunc_to_int (inject_Z k) = k.
Proof. unfold trunc_to_int; simpl; apply Z.quot_1_r. Qed.

Lemma trunc_to_int_bounds x a b :
  (inject_Z a <= x <= inject_Z b)%Q -> a <= trunc_to_int x <= b.
Proof.
  intros [Ha Hb]; rewrite trunc_to_int_floor.
  destruct (Qle_bool 0 x) eqn:E.
  - pose proof (Qfloor_resp_le _ _ Ha) as A; pose proof (Qfloor_resp_le _ _ Hb) as B.
    rewrite Qfloor_Z in A, B; lia.
  - apply Qle_bool_false in E.
    assert (Ha' : (- x <= inject_Z (- a))%Q) by (rewrite inject_Z_opp; lra).
    assert (Hb' : (inject_Z (- b) <= - x)%Q) by (rewrite inject_Z_opp; lra).
    pose proof (Qfloor_resp_le _ _ Ha') as A; pose proof (Qfloor_resp_le _ _ Hb') as B.
    rewrite Qfloor_Z in A, B; lia.
Qed.

Lemma land_low16 t : Z.land t 65535 = t mod 65536.
Proof. change 65535 with (Z.ones 16); rewrite Z.land_ones by lia; reflexivity. Qed.


Lemma to_u16_small z : 0 <= z < 65536 -> to_u16 z = z.
Proof. intros; unfold to_u16; apply Z.mod_small; assumption. Qed.

Lemma setpoint_register s k :
  (setpoint s == inject_Z k / 10)%Q -> trunc_to_int (setpoint s * 10)%Q = k.
Proof.
  intros H.
  assert (E : (setpoint s * 10 == inject_Z k)%Q) by (rewrite H; field).
  rewrite (trunc_to_int_proper _ _ E); apply trunc_to_int_Z.
Qed.


Lemma heater_register_range s :
  ext_inv s -> 0 <= trunc_to_int (heater_power s * 10)%Q <= 800.
Proof.
  intros (_ & _ & _ & _ & Hh & _); apply trunc_to_int_bounds.
  unfold inject_Z; split; lra.
Qed.

(** Register-by-register content of [process_to_registers] in a reachable
    state. *)
Lemma to_registers_facts s :
  reachable s ->
  exists k, 0 <= k <= 400 /\ (setpoint s == inject_Z k / 10)%Q /\
  process_to_registers s =
    [ to_u16 (trunc_to_int (inside_temp s * 10)%Q mod 65536);
      valve_cmd s; k; mode_code (mode s); 65386; status_code (status s);
      valve_actual s; 900; runtime s mod 65536;
      trunc_to_int (heater_power s * 10)%Q ].
Proof.
  intros Hs.
  pose proof (reachable_range_inv s Hs) as (Hc & Ha & _).
  pose proof (reachable_ext_inv s Hs) as E.
  pose proof (heater_register_range s E) as Hh.
  destruct E as (_ & Ho & Hsu & (k & Hk & Hsp) & _).
  exists k; split; [exact Hk|]; split; [exact Hsp|].
  unfold process_to_registers; rewrite Ho, Hsu, !land_low16.
  rewrite (setpoint_register s k Hsp).
  rewrite (to_u16_small (valve_cmd s)), (to_u16_small k),
    (to_u16_small (mode_code (mode s))), (to_u16_small (status_code (status s))),
    (to_u16_small (valve_actual s)),
    (to_u16_small (trunc_to_int (heater_power s * 10)%Q))
    by (try destruct (mode s); try destruct (status s); simpl; lia).
  rewrite (to_u16_small (runtime s mod 65536)) by (apply Z.mod_pos_bound; lia).
  reflexivity.
Qed.


(** X2: writing the register image of a reachable state back into that
    state changes nothing: a request that leaves the holding registers as
    [process_thread] published them is a no-op on the process state. *)
Theorem registers_round_trip s :
  reachable s ->
  state_equiv (process_from_registers s (process_to_registers s)) s.
Proof.
  intros Hs.
  destruct (to_registers_facts s Hs) as (k & Hk & Hsp & ->).
  unfold process_from_registers; cbv zeta; cbn [nth].
  assert (Hm : (if mode_code (mode s) <=? 1 then mode_of_code (mode_code (mode s))
                else mode s) = mode s) by (destruct (mode s); reflexivity).
  assert (Hv : (if valve_cmd s <=? 100 then valve_cmd s else valve_cmd s)
               = valve_cmd s) by (destruct (valve_cmd s <=? 100); reflexivity).
  rewrite (proj2 (Z.leb_le k 400) (proj2 Hk)), Hm, Hv.
  unfold state_equiv; proj; repeat split; try reflexivity.
  rewrite Qred_correct; symmetry; exact Hsp.
Qed.

(** X3: [process_thread] refreshes the register bank only after the
    physics tick and the controller step, while a client thread calls
    [process_from_registers] on the bank without that ordering. A write-back
    of the bank published for a reachable state [s], applied after the next
    tick, resets the valve command, the setpoint and the mode to those of
    [s]: the controller's new valve command of that tick is undone, while
    the tick's temperature and valve position are kept. *)
Theorem stale_write_back s :
  reachable s ->
  let s1 := process_thread_step s in
  let s' := process_from_registers s1 (process_to_registers s) in
  valve_cmd s' = valve_cmd s /\ mode s' = mode s /\ (setpoint s' == setpoint s)%Q /\
  inside_temp s' = inside_temp s1 /\ valve_actual s' = valve_actual s1.
Proof.
  intros Hs; cbv zeta.
  pose proof (reachable_range_inv s Hs) as (Hc & _).
  destruct (to_registers_facts s Hs) as (k & Hk & Hsp & ->).
  unfold process_from_registers; cbv zeta; cbn [nth]; proj.
  rewrite (proj2 (Z.leb_le k 400) (proj2 Hk)),
    (proj2 (Z.leb_le (valve_cmd s) 100) (proj2 Hc)).
  repeat split; try reflexivity.
  - destruct (mode s); reflexivity.
  - rewrite Qred_correct; symmetry; exact Hsp.
Qed.

(** X4: in every reachable state the status is the one the temperature
    ladder gives for the current inside temperature (BURST at or below -2,
    FROZEN at or below 0, CRITICAL at or below 5, WARNING at or below 10,
    OK above), the pipes are burst exactly in status BURST, and
    [process_thread] draws the failure screen exactly in status BURST. *)
Theorem status_follows_temperature s :
  reachable s ->
  status s = classify_temp (inside_temp s) /\
  (pipes_burst s = true <-> status s = STATUS_BURST) /\
  ((exists str, screen_of s = Screen_failure str) <-> status s = STATUS_BURST).
Proof.
  intros Hs.
  destruct (reachable_ext_inv s Hs) as (_ & _ & _ & _ & _ & Hst & Hpb & _).
  refine (conj Hst (conj Hpb _)).
  rewrite <- Hpb; unfold screen_of.
  destruct (pipes_burst s); split.
  - intros _; reflexivity.
  - intros _; eexists; reflexivity.
  - intros [str H]; discriminate H.
  - intros H; discriminate H.
Qed.

(** ** Valve dynamics and counters over ticks *)

Lemma valve_slew_running s :
  controller_running s = true ->
  valve_slew s = (if valve_cmd s - valve_actual s >? 5 then valve_actual s + 5
                  else if valve_cmd s - valve_actual s <? - 5 then valve_actual s - 5
                  else valve_cmd s).
Proof. intros H; unfold valve_slew; rewrite H; reflexivity. Qed.

Lemma physics_valve_actual s :
  range_inv s ->
  let va := valve_actual s in let vc := valve_cmd s in
  let va' := valve_actual (process_update_physics s) in
  (controller_running s = false \/ pipes_burst s = true -> va' = va) /\
  (controller_running s = true -> pipes_burst s = false ->
   va' = (if vc - va >? 5 then va + 5 else if vc - va <? - 5 then va - 5 else vc)).
Proof.
  intros R; pose proof R as (Hc & Ha & _); cbv zeta; split.
  - intros [Hd | Hb].
    + apply physics_dead_valve; assumption.
    + rewrite physics_burst by exact Hb; reflexivity.
  - intros Hr Hb.
    pose proof (physics_fields s Hb) as F; cbv zeta in F.
    destruct F as (_ & _ & _ & _ & _ & _ & Hva & _); rewrite Hva.
    rewrite valve_slew_running by exact Hr.
    apply clamp_percent_id; zcases; lia.
Qed.

Lemma thread_step_burst s :
  pipes_burst s = true -> process_thread_step s = s.
Proof.
  intros H; unfold process_thread_step; rewrite physics_burst by exact H.
  destruct (controller_running s); [apply controller_burst, H | reflexivity].
Qed.

Lemma iter_ticks_burst n s :
  pipes_burst s = true -> iter_ticks n s = s.
Proof.
  revert s; induction n as [|n IH]; intros s H; simpl; [reflexivity|].
  rewrite thread_step_burst by exact H; apply IH, H.
Qed.

Lemma iter_ticks_not_burst n s :
  pipes_burst (iter_ticks (S n) s) = false ->
  pipes_burst s = false /\ pipes_burst (iter_ticks n (process_thread_step s)) = false.
Proof.
  intros H; split; [|exact H].
  destruct (pipes_burst s) eqn:E; [|reflexivity].
  rewrite iter_ticks_burst in H by exact E; congruence.
Qed.

Lemma physics_mode s : mode (process_update_physics s) = mode s.
Proof.
  destruct (pipes_burst s) eqn:Ep; [rewrite physics_burst by exact Ep; reflexivity|].
  unfold process_update_physics; rewrite Ep; reflexivity.
Qed.

Lemma physics_running s :
  controller_running (process_update_physics s) = controller_running s.
Proof.
  destruct (pipes_burst s) eqn:Ep; [rewrite physics_burst by exact Ep; reflexivity|].
  unfold process_update_physics; rewrite Ep; reflexivity.
Qed.

(** In MANUAL mode the controller leaves the state as it is. *)
Lemma manual_thread_step s :
  mode s = MODE_MANUAL -> process_thread_step s = process_update_physics s.
Proof.
  intros Hm; unfold process_thread_step.
  destruct (controller_running (process_update_physics s)); [|reflexivity].
  unfold process_run_controller; rewrite physics_mode, Hm.
  destruct (_ || _); reflexivity.
Qed.

(** The counters of one tick. *)
Lemma thread_step_counters s :
  pipes_burst s = false ->
  let s' := process_thread_step s in
  runtime s' = u32_incr (runtime s) /\
  controller_running s' = controller_running s /\
  time_without_control s' = (if controller_running s then time_without_control s
                             else u32_incr (time_without_control s)).
Proof.
  intros Hb; cbv zeta; unfold process_thread_step.
  rewrite physics_running.
  assert (P : runtime (process_update_physics s) = u32_incr (runtime s) /\
              time_without_control (process_update_physics s) =
              (if controller_running s then time_without_control s
               else u32_incr (time_without_control s)))
    by (unfold process_update_physics; rewrite Hb; simpl;
        destruct (controller_running s); split; reflexivity).
  destruct P as [P1 P2].
  destruct (controller_running s) eqn:Ec.
  - unfold process_run_controller; rewrite physics_running, Ec.
    repeat match goal with |- context [if ?b then _ else _] => destruct b end;
      proj; rewrite ?physics_running, ?Ec; auto.
  - rewrite physics_running; auto.
Qed.


(** X6: in MANUAL mode the ticks of [process_thread] never change the
    valve command; with the controller alive and the pipes intact, the
    valve position reaches the command after [n] ticks whenever the initial
    gap is at most [5 n] percentage points. *)
Theorem manual_valve_converges n s :
  reachable s -> mode s = MODE_MANUAL ->
  valve_cmd (iter_ticks n s) = valve_cmd s /\
  (controller_running s = true -> pipes_burst (iter_ticks n s) = false ->
   Z.abs (valve_cmd s - valve_actual s) <= 5 * Z.of_nat n ->
   valve_actual (iter_ticks n s) = valve_cmd s).
Proof.
  revert s; induction n as [|n IH]; intros s Hs Hm; simpl.
  - split; [reflexivity|]; intros _ _ H; lia.
  - rewrite manual_thread_step by exact Hm.
    assert (Hs1 : reachable (process_update_physics s))
      by (apply (reach_op Op_physics); [exact I | exact Hs]).
    destruct (IH _ Hs1 (eq_trans (physics_mode s) Hm)) as [IH1 IH2].
    rewrite physics_valve_cmd in IH1, IH2.
    split; [exact IH1|].
    intros Hr Hb Hd.
    assert (Hb0 : pipes_burst s = false).
    { destruct (pipes_burst s) eqn:E; [|reflexivity].
      rewrite physics_burst, iter_ticks_burst in Hb by exact E; congruence. }
    apply IH2; [rewrite physics_running; exact Hr | exact Hb|].
    pose proof (physics_valve_actual s (reachable_range_inv s Hs)) as [_ H2];
      cbv zeta in H2; rewrite (H2 Hr Hb0).
    zcases; lia.
Qed.

(** X7: while the pipes are intact, every tick of [process_thread]
    increments [runtime] modulo 2^32, and when the controller is dead it
    increments [time_without_control] in the same way: after [n] ticks both
    counters have advanced by [n] modulo 2^32. *)
Theorem tick_counters n s :
  reachable s -> pipes_burst (iter_ticks n s) = false ->
  runtime (iter_ticks n s) = (runtime s + Z.of_nat n) mod 2 ^ 32 /\
  (controller_running s = false ->
   time_without_control (iter_ticks n s) =
   (time_without_control s + Z.of_nat n) mod 2 ^ 32).
Proof.
  revert s; induction n as [|n IH]; intros s Hs Hb.
  - destruct (reachable_ext_inv s Hs) as (_ & _ & _ & _ & _ & _ & _ & _ & Hr & Ht).
    simpl; split; [|intros _]; rewrite Z.add_0_r, Z.mod_small by assumption;
      reflexivity.
  - destruct (iter_ticks_not_burst n s Hb) as [Hb0 Hb1].
    destruct (IH _ (reachable_thread_step s Hs) Hb1) as [IH1 IH2].
    destruct (thread_step_counters s Hb0) as (C1 & C2 & C3).
    simpl; rewrite IH1, C1; unfold u32_incr.
    split.
    + rewrite Zplus_mod_idemp_l; f_equal; lia.
    + intros Hd; rewrite IH2 by (rewrite C2; exact Hd).
      rewrite C3, Hd; unfold u32_incr; rewrite Zplus_mod_idemp_l; f_equal; lia.
Qed.

(** ** Heat balance *)

Lemma raw_next_temp_contraction s :
  let eq := equilibrium_temp s (clamp_percent (valve_slew s)) in
  (raw_next_temp s - eq == (985 # 1000) * (inside_temp s - eq))%Q.
Proof.
  unfold raw_next_temp, equilibrium_temp, heat_loss_of, HEAT_LOSS_FACTOR, dt,
    UPDATE_INTERVAL_MS; cbv zeta.
  field; unfold Qeq; simpl; lia.
Qed.

(** X8: a physics tick with intact pipes moves the inside temperature of a
    reachable state toward the equilibrium of the new valve position (the
    temperature at which heat gain equals heat loss), without overshooting
    it; before the [-30, 50] clamp the distance to that equilibrium shrinks
    by the factor 0.985. *)
Theorem temperature_toward_equilibrium s :
  reachable s -> pipes_burst s = false ->
  let s' := process_update_physics s in
  let eq := equilibrium_temp s (valve_actual s') in
  (raw_next_temp s - eq == (985 # 1000) * (inside_temp s - eq))%Q /\
  (inside_temp s' == clamp_temp (raw_next_temp s))%Q /\
  (inside_temp s <= eq -> inside_temp s <= inside_temp s' <= eq)%Q /\
  (eq <= inside_temp s -> eq <= inside_temp s' <= inside_temp s)%Q.
Proof.
  intros Hs Hb; cbv zeta.
  destruct (reachable_ext_inv s Hs) as (Hi & _).
  pose proof (physics_fields s Hb) as F; cbv zeta in F.
  destruct F as (Ht & _ & _ & _ & _ & _ & Hva & _).
  assert (HT : (inside_temp (process_update_physics s) == clamp_temp (raw_next_temp s))%Q)
    by (rewrite Ht, Qred_correct; unfold raw_next_temp; rewrite Hva; reflexivity).
  pose proof (raw_next_temp_contraction s) as C; cbv zeta in C; rewrite <- Hva in C.
  refine (conj C (conj HT _)); rewrite HT.
  set (r := raw_next_temp s) in *.
  set (e := equilibrium_temp s _) in *.
  split; intros Hd; unfold clamp_temp; cbv zeta; qcases; lra.
Qed.

(** ** What the console shows *)

(** X9: in every reachable state the temperature bar of [render_temp_bar],
    the colour of the current-temperature line and the status indicator of
    [display_render] use the same colour, and the radiator is drawn with
    ice exactly when the status is CRITICAL or worse. *)
Theorem display_colours_agree s :
  reachable s ->
  bar_color (inside_temp s) = status_color (status s) /\
  temp_line_color (status s) = status_color (status s) /\
  (radiator_of s = Rad_ice <-> status_code (status s) >= 2).
Proof.
  intros Hs.
  destruct (reachable_ext_inv s Hs) as (_ & _ & _ & _ & _ & Hst & _).
  unfold radiator_of; rewrite Hst.
  unfold bar_color, classify_temp, TEMP_FROZEN, TEMP_CRITICAL, TEMP_WARNING.
  destruct (valve_actual s >? 50), (valve_actual s >? 0);
    qcases; cbn; repeat split; try reflexivity; try discriminate; try lia;
    exfalso; lra.
Qed.


(** ** [format_runtime] *)

Lemma digit_value d :
  0 <= d <= 9 -> Z.of_nat (nat_of_ascii (digit_char d)) - 48 = d.
Proof.
  intros Hd; unfold digit_char.
  rewrite nat_ascii_embedding by lia; lia.
Qed.

Lemma dec_value_snoc l c :
  dec_value (l ++ [c]) = dec_value l * 10 + (Z.of_nat (nat_of_ascii c) - 48).
Proof. unfold dec_value; rewrite fold_left_app; reflexivity. Qed.

Lemma dec_value_zero l : dec_value ("0"%char :: l) = dec_value l.
Proof. reflexivity. Qed.

Lemma dec_digits_S f n :
  dec_digits (S f) n = if n <? 10 then [digit_char n]
                       else dec_digits f (n / 10) ++ [digit_char (n mod 10)].
Proof. reflexivity. Qed.

Lemma dec_digits_spec f n :
  0 <= n < 10 ^ Z.of_nat (S f) ->
  dec_value (dec_digits (S f) n) = n /\
  (1 <= length (dec_digits (S f) n))%nat /\
  (forall k, 1 <= k -> n < 10 ^ k -> Z.of_nat (length (dec_digits (S f) n)) <= k).
Proof.
  revert n; induction f as [|f IH]; intros n Hn.
  - change (10 ^ Z.of_nat 1) with 10 in Hn.
    rewrite dec_digits_S, (proj2 (Z.ltb_lt n 10)) by lia; simpl.
    split; [apply digit_value; lia|]; split; [lia|]; intros; lia.
  - rewrite dec_digits_S.
    destruct (Z.ltb_spec n 10).
    + simpl; split; [apply digit_value; lia|]; split; [lia|]; intros; lia.
    + assert (Hq : 0 <= n / 10 < 10 ^ Z.of_nat (S f)).
      { split; [apply Z.div_pos; lia|].
        apply Z.div_lt_upper_bound; [lia|].
        rewrite <- Z.pow_succ_r by lia; rewrite <- Nat2Z.inj_succ; lia. }
      destruct (IH _ Hq) as (V & L1 & L2).
      rewrite dec_value_snoc, V, digit_value by (pose proof (Z.mod_pos_bound n 10); lia).
      rewrite length_app; cbn [length].
      split; [pose proof (Z.div_mod n 10); lia|]; split; [lia|].
      intros k Hk Hnk.
      assert (Hk2 : 2 <= k).
      { destruct (Z.eq_dec k 1) as [->|]; [|lia]. change (10 ^ 1) with 10 in Hnk; lia. }
      assert (Hqk : n / 10 < 10 ^ (k - 1)).
      { apply Z.div_lt_upper_bound; [lia|].
        rewrite <- Z.pow_succ_r by lia; replace (Z.succ (k - 1)) with k by lia; exact Hnk. }
      specialize (L2 (k - 1) ltac:(lia) Hqk); lia.
Qed.

Lemma fmt02d_spec n :
  0 <= n < 10 ^ 10 ->
  dec_value (fmt02d n) = n /\ (2 <= length (fmt02d n))%nat /\
  (forall k, 2 <= k -> n < 10 ^ k -> Z.of_nat (length (fmt02d n)) <= k).
Proof.
  intros Hn.
  destruct (dec_digits_spec 9 n Hn) as (V & L1 & L2).
  unfold fmt02d.
  destruct (Nat.ltb_spec (length (dec_digits 10 n)) 2).
  - rewrite dec_value_zero; cbn [length].
    split; [exact V|]; split; [lia|]; intros; lia.
  - split; [exact V|]; split; [lia|]; intros k Hk Hnk; apply L2; lia.
Qed.

(** X11: for every [uint32_t] value, [format_runtime] splits the seconds
    into hours, minutes below 60 and seconds below 60 that add up to the
    value, prints each as a decimal number that reads back as that field
    (minutes and seconds on exactly two digits), and the text has at most
    13 characters, so the 16-byte buffers of [display.c] never truncate it;
    below 100 hours it is exactly the 8 characters [HH:MM:SS]. *)
Theorem format_runtime_layout seconds :
  0 <= seconds < 2 ^ 32 ->
  let h := seconds / 3600 in
  let m := seconds mod 3600 / 60 in
  let sec := seconds mod 60 in
  format_runtime seconds 16 =
    fmt02d h ++ [":"%char] ++ fmt02d m ++ [":"%char] ++ fmt02d sec /\
  h * 3600 + m * 60 + sec = seconds /\ 0 <= m < 60 /\ 0 <= sec < 60 /\
  dec_value (fmt02d h) = h /\ dec_value (fmt02d m) = m /\
  dec_value (fmt02d sec) = sec /\
  length (fmt02d m) = 2%nat /\ length (fmt02d sec) = 2%nat /\
  (length (format_runtime seconds 16) <= 13)%nat /\
  (seconds < 360000 -> length (format_runtime seconds 16) = 8%nat).
Proof.
  intros Hs; cbv zeta.
  assert (Hh : 0 <= seconds / 3600 < 10 ^ 7).
  { split; [apply Z.div_pos; lia|]; apply Z.div_lt_upper_bound; lia. }
  assert (Hm : 0 <= seconds mod 3600 / 60 < 60).
  { pose proof (Z.mod_pos_bound seconds 3600); split;
      [apply Z.div_pos; lia | apply Z.div_lt_upper_bound; lia]. }
  assert (Hc : 0 <= seconds mod 60 < 60) by (apply Z.mod_pos_bound; lia).
  destruct (fmt02d_spec (seconds / 3600) ltac:(lia)) as (Vh & Lh1 & Lh2).
  destruct (fmt02d_spec (seconds mod 3600 / 60) ltac:(lia)) as (Vm & Lm1 & Lm2).
  destruct (fmt02d_spec (seconds mod 60) ltac:(lia)) as (Vc & Lc1 & Lc2).
  specialize (Lh2 7 ltac:(lia) (proj2 Hh)).
  specialize (Lm2 2 ltac:(lia) ltac:(lia)); specialize (Lc2 2 ltac:(lia) ltac:(lia)).
  assert (Em : length (fmt02d (seconds mod 3600 / 60)) = 2%nat) by lia.
  assert (Ec : length (fmt02d (seconds mod 60)) = 2%nat) by lia.
  set (out := fmt02d (seconds / 3600) ++ [":"%char] ++ fmt02d (seconds mod 3600 / 60)
              ++ [":"%char] ++ fmt02d (seconds mod 60)).
  assert (Lo : length out = (length (fmt02d (seconds / 3600)) + 6)%nat)
    by (unfold out; rewrite !length_app, Em, Ec; simpl; lia).
  assert (Eo : format_runtime seconds 16 = out).
  { unfold format_runtime, format_runtime_fields, snprintf_chars.
    apply firstn_all2; fold out; lia. }
  rewrite Eo.
  repeat split; try reflexivity; try assumption; try lia.
  - assert (Hmm : seconds mod 3600 mod 60 = seconds mod 60)
      by (apply Z.mod_mod_divide; exists 60; reflexivity).
    pose proof (Z.div_mod seconds 3600 ltac:(lia)).
    pose proof (Z.div_mod (seconds mod 3600) 60 ltac:(lia)); lia.
  - intros Hlt.
    assert (Hh2 : seconds / 3600 < 10 ^ 2) by (apply Z.div_lt_upper_bound; lia).
    destruct (fmt02d_spec (seconds / 3600) ltac:(lia)) as (_ & _ & L).
    specialize (L 2 ltac:(lia) Hh2); lia.
Qed.

(** ** [render_temp_bar] *)

Lemma bar_pos_range x : 0 <= bar_pos x <= 49.
Proof. unfold bar_pos, bar_width; cbv zeta; rewrite Z.geb_leb; zcases; lia. Qed.

Section Bar.
Variables (p q : Z) (c : color).

Let cell (i : Z) : bar_cell :=
  if i =? q then Cell_setpoint else if i <? p then Cell_filled c else Cell_empty.

Lemma bar_cells_count n :
  0 <= p -> 0 <= q ->
  let cells := map cell (map Z.of_nat (seq 0 n)) in
  Z.of_nat (length (filter is_marker cells)) = Z.min 1 (Z.max 0 (Z.of_nat n - q)) /\
  Z.of_nat (length (filter is_filled cells)) =
    Z.min p (Z.of_nat n) - Z.min 1 (Z.max 0 (Z.min p (Z.of_nat n) - q)).
Proof.
  intros Hp Hq; induction n as [|n IH]; cbv zeta in *.
  - simpl; lia.
  - destruct IH as [IH1 IH2].
    rewrite seq_S, !map_app, !filter_app, !length_app, !Nat2Z.inj_add, IH1, IH2.
    cbn [map filter]; rewrite Nat.add_0_l.
    assert (Hcell : cell (Z.of_nat n) =
                    if Z.of_nat n =? q then Cell_setpoint
                    else if Z.of_nat n <? p then Cell_filled c else Cell_empty)
      by reflexivity.
    rewrite Hcell, Nat2Z.inj_succ.
    destruct (Z.eqb_spec (Z.of_nat n) q); [|destruct (Z.ltb_spec (Z.of_nat n) p)];
      cbn [is_marker is_filled length Z.of_nat]; lia.
Qed.

Lemma bar_cell_at i n :
  (i < n)%nat ->
  nth i (map cell (map Z.of_nat (seq 0 n))) Cell_empty = cell (Z.of_nat i).
Proof.
  intros Hi.
  rewrite (nth_indep _ _ (cell (Z.of_nat 0))) by (rewrite !length_map, length_seq; lia).
  rewrite map_nth, map_nth, seq_nth by lia; reflexivity.
Qed.

Lemma bar_cells_filled_color a n :
  Forall (fun x => is_filled x = true -> x = Cell_filled c)
    (map cell (map Z.of_nat (seq a n))).
Proof.
  apply Forall_forall; intros x Hx Hf.
  apply in_map_iff in Hx; destruct Hx as (i & <- & _).
  unfold cell in *; destruct (i =? q); [discriminate|].
  destruct (i <? p); [reflexivity | discriminate].
Qed.

End Bar.

(** X12: the bar drawn by [render_temp_bar] has 50 cells, exactly one of
    them the setpoint marker (at the setpoint position, in [0, 49]); the
    filled cells all have the bar colour and there are as many as the
    temperature position, one fewer when the setpoint marker falls below
    that position. *)
Theorem temp_bar_layout temp sp :
  let cells := render_temp_bar temp sp in
  length cells = 50%nat /\
  0 <= bar_pos temp <= 49 /\ 0 <= bar_pos sp <= 49 /\
  length (filter is_marker cells) = 1%nat /\
  nth (Z.to_nat (bar_pos sp)) cells Cell_empty = Cell_setpoint /\
  Z.of_nat (length (filter is_filled cells)) =
    bar_pos temp - (if bar_pos sp <? bar_pos temp then 1 else 0) /\
  Forall (fun x => is_filled x = true -> x = Cell_filled (bar_color temp)) cells.
Proof.
  cbv zeta; unfold render_temp_bar; cbv zeta.
  pose proof (bar_pos_range temp) as Ht; pose proof (bar_pos_range sp) as Hp.
  destruct (bar_cells_count (bar_pos temp) (bar_pos sp) (bar_color temp)
              (Z.to_nat bar_width) ltac:(lia) ltac:(lia)) as [C1 C2].
  cbv zeta in C1, C2; unfold bar_width in *.
  rewrite Z2Nat.id in C1, C2 by lia.
  split; [rewrite !length_map, length_seq; reflexivity|].
  split; [exact Ht|]; split; [exact Hp|].
  split; [|split; [|split]].
  - lia.
  - rewrite (bar_cell_at (bar_pos temp) (bar_pos sp) (bar_color temp))
      by (change (Z.to_nat 50) with 50%nat; lia).
    rewrite Z2Nat.id, Z.eqb_refl by lia; reflexivity.
  - rewrite C2; destruct (Z.ltb_spec (bar_pos sp) (bar_pos temp)); lia.
  - apply bar_cells_filled_color.
Qed.

(** ** Burst without a controller crash *)

(** X13: in a reachable state whose controller is running,
    [time_without_control] is 0; so when the pipes burst while the
    controller is still running, the failure screen of [process_thread]
    reports [00:00:00] as the time without heat. *)
Theorem burst_screen_running_controller s :
  reachable s -> controller_running s = true ->
  time_without_control s = 0 /\
  (pipes_burst s = true ->
   screen_of s = Screen_failure ["0"; "0"; ":"; "0"; "0"; ":"; "0"; "0"]%char).
Proof.
  intros Hs Hc.
  destruct (reachable_ext_inv s Hs) as (_ & _ & _ & _ & _ & _ & _ & Htw & _).
  specialize (Htw Hc); split; [exact Htw|].
  intros Hb; unfold screen_of; rewrite Hb, Htw; reflexivity.
Qed.

(** ** Witnesses of the further properties *)


Lemma registers_round_trip_witness :
  reachable process_init /\
  state_equiv (process_from_registers process_init (process_to_registers process_init))
    process_init.
Proof.
  assert (Hr : reachable process_init) by constructor.
  exact (conj Hr (registers_round_trip process_init Hr)).
Defined.

Lemma stale_write_back_witness :
  reachable process_init /\
  valve_cmd (process_thread_step process_init) = 29 /\
  valve_cmd (process_from_registers (process_thread_step process_init)
               (process_to_registers process_init)) = 50.
Proof.
  assert (Hr : reachable process_init) by constructor.
  split; [exact Hr|]; split; [vm_compute; reflexivity|].
  exact (proj1 (stale_write_back process_init Hr)).
Defined.

Lemma status_follows_temperature_witness :
  reachable burst_state /\ status burst_state = classify_temp (inside_temp burst_state).
Proof.
  assert (Hr : reachable burst_state)
    by (apply reachable_iter_ticks, reachable_from_registers;
        [constructor | bank_ok]).
  exact (conj Hr (proj1 (status_follows_temperature burst_state Hr))).
Defined.


Lemma manual_valve_converges_witness :
  let s := process_from_registers process_init cooling_bank in
  reachable s /\ mode s = MODE_MANUAL /\ controller_running s = true /\
  pipes_burst (iter_ticks 10 s) = false /\
  Z.abs (valve_cmd s - valve_actual s) <= 5 * Z.of_nat 10 /\
  valve_actual (iter_ticks 10 s) = valve_cmd s.
Proof.
  cbv zeta.
  assert (Hr : reachable (process_from_registers process_init cooling_bank))
    by (apply reachable_from_registers; [constructor | bank_ok]).
  assert (Hm : mode (process_from_registers process_init cooling_bank) = MODE_MANUAL)
    by (vm_compute; reflexivity).
  assert (Hc : controller_running (process_from_registers process_init cooling_bank)
               = true) by (vm_compute; reflexivity).
  assert (Hb : pipes_burst (iter_ticks 10
                 (process_from_registers process_init cooling_bank)) = false)
    by (vm_compute; reflexivity).
  assert (Hd : Z.abs (valve_cmd (process_from_registers process_init cooling_bank) -
                      valve_actual (process_from_registers process_init cooling_bank))
               <= 5 * Z.of_nat 10) by (vm_compute; discriminate).
  exact (conj Hr (conj Hm (conj Hc (conj Hb (conj Hd
    (proj2 (manual_valve_converges 10 _ Hr Hm) Hc Hb Hd)))))).
Defined.

Lemma tick_counters_witness :
  let s := process_controller_crash process_init in
  reachable s /\ pipes_burst (iter_ticks 3 s) = false /\
  controller_running s = false /\
  time_without_control (iter_ticks 3 s) = (time_without_control s + 3) mod 2 ^ 32.
Proof.
  cbv zeta.
  assert (Hr : reachable (process_controller_crash process_init))
    by (apply (reach_op Op_crash); constructor).
  assert (Hb : pipes_burst (iter_ticks 3 (process_controller_crash process_init)) = false)
    by (vm_compute; reflexivity).
  assert (Hc : controller_running (process_controller_crash process_init) = false)
    by reflexivity.
  exact (conj Hr (conj Hb (conj Hc (proj2 (tick_counters 3 _ Hr Hb) Hc)))).
Defined.

Lemma temperature_toward_equilibrium_witness :
  reachable process_init /\ pipes_burst process_init = false /\
  (inside_temp (process_update_physics process_init) ==
   clamp_temp (raw_next_temp process_init))%Q.
Proof.
  assert (Hr : reachable process_init) by constructor.
  assert (Hb : pipes_burst process_init = false) by reflexivity.
  split; [exact Hr|]; split; [exact Hb|].
  exact (proj1 (proj2 (temperature_toward_equilibrium process_init Hr Hb))).
Defined.

Lemma display_colours_agree_witness :
  reachable burst_state /\
  bar_color (inside_temp burst_state) = status_color (status burst_state).
Proof.
  assert (Hr : reachable burst_state)
    by (apply reachable_iter_ticks, reachable_from_registers;
        [constructor | bank_ok]).
  exact (conj Hr (proj1 (display_colours_agree burst_state Hr))).
Defined.

Lemma format_runtime_layout_witness :
  0 <= 3725 < 2 ^ 32 /\ 3725 < 360000 /\ length (format_runtime 3725 16) = 8%nat.
Proof.
  assert (H : 0 <= 3725 < 2 ^ 32) by lia.
  split; [exact H|]; split; [lia|].
  destruct (format_runtime_layout 3725 H) as (_ & _ & _ & _ & _ & _ & _ & _ & _ & _ & L).
  apply L; lia.
Defined.

Lemma burst_screen_running_controller_witness :
  reachable burst_state /\ controller_running burst_state = true /\
  pipes_burst burst_state = true /\
  screen_of burst_state =
    Screen_failure ["0"; "0"; ":"; "0"; "0"; ":"; "0"; "0"]%char.
Proof.
  assert (Hr : reachable burst_state)
    by (apply reachable_iter_ticks, reachable_from_registers;
        [constructor | bank_ok]).
  assert (Hc : controller_running burst_state = true) by (vm_compute; reflexivity).
  assert (Hb : pipes_burst burst_state = true) by (vm_compute; reflexivity).
  split; [exact Hr|]; split; [exact Hc|]; split; [exact Hb|].
  exact (proj2 (burst_screen_running_controller burst_state Hr Hc) Hb).
Defined.
